(** * Oracle Grid Infrastructure facts: the parsers of [oracle_gi_facts.py]

    A shallow embedding of [plugins/modules/oracle_gi_facts.py]: the command
    runner ([exec_program_lines], [exec_program]), the record parsers
    ([get_networks], [get_vips], [get_scans], [local_listener],
    [scan_listener]) and the fact assembly of [main].

    Conventions of the embedding.
    - Python text and the bytes of a process's standard output are both
      [string]s of 8-bit characters; [decode] is the ASCII codec, so the
      embedding covers the 7-bit output that [srvctl], [crsctl], [cemutlo]
      and [olsnodes] print.
    - A Python [dict] is a [gmap] with [string] keys.  The module targets
      Python 2.6 and later, where the order of [dict.keys()] and
      [dict.values()] is not specified; [keys] and [values] enumerate the map
      in the order of [map_to_list].
    - A raised exception is the [Raise] case of [result]; code that can
      raise is written in the [result] monad, in the order Python evaluates
      it.
    - The host is a [World]: what [check_output] answers to an argument
      vector, the host name and the resolver behind [getfqdn].  The commands
      only read the cluster configuration, so one run sees one [World]. *)

From stdpp Require Import base strings list gmap option.
From Stdlib Require Import ZArith Ascii.

Open Scope string_scope.
Open Scope stdpp_scope.
Open Scope list_scope.

(** ** Exceptions *)

Inductive exn : Type :=
| AttributeError (ty attr : string)  (* '<ty>' object has no attribute '<attr>' *)
| KeyError (key : string)
| IndexError                         (* list index out of range *)
| TypeError
| UnicodeDecodeError.

Inductive result (A : Type) : Type :=
| Ok (a : A)
| Raise (e : exn).
Arguments Ok {A} a.
Arguments Raise {A} e.

#[global] Instance result_ret : MRet result := λ A a, Ok a.
#[global] Instance result_bind : MBind result := λ A B f r,
  match r with
  | Ok a => f a
  | Raise e => Raise e
  end.

(** [str(e)], the text Python prints for the exception. *)
Definition exn_message (e : exn) : string :=
  match e with
  | AttributeError ty attr =>
      "'" +:+ ty +:+ "' object has no attribute '" +:+ attr +:+ "'"
  | KeyError key => "'" +:+ key +:+ "'"
  | IndexError => "list index out of range"
  | TypeError => "unsupported operand type(s)"
  | UnicodeDecodeError => "'ascii' codec can't decode byte"
  end.

(** [for x in xs: st = body(x, st)], leaving the loop at the first raise. *)
Fixpoint for_each {A S : Type} (body : A → S → result S) (xs : list A) (st : S)
  : result S :=
  match xs with
  | [] => Ok st
  | x :: xs' => st' ← body x st; for_each body xs' st'
  end.

(** ** Python strings *)

Module Py.

Definition nl : ascii := "010"%char.

(** [s.startswith(p)] *)
Definition startswith (p s : string) : bool := String.prefix p s.

(** [s[n:]] for a literal [n >= 0] *)
Fixpoint from (n : nat) (s : string) : string :=
  match n, s with
  | 0, _ => s
  | S n', String _ s' => from n' s'
  | S _, EmptyString => ""
  end.

(** [sub in s] *)
Fixpoint contains (sub s : string) : bool :=
  startswith sub s ||
  match s with
  | String _ s' => contains sub s'
  | EmptyString => false
  end.

(** [s.find(c)] for a one-character [c]: the first index, or -1 *)
Fixpoint find (c : ascii) (s : string) : Z :=
  match s with
  | EmptyString => -1
  | String c' s' =>
      if Ascii.eqb c' c then 0
      else let i := find c s' in if (i <? 0)%Z then -1 else (i + 1)%Z
  end.

(** A slice bound as Python normalises it: negative bounds count from the
    end, and every bound is clamped to [0 .. len]. *)
Definition bound (len i : Z) : Z :=
  if (i <? 0)%Z then Z.max 0 (i + len) else Z.min i len.

(** [s[lo:hi]] *)
Definition slice (lo hi : Z) (s : string) : string :=
  let len := Z.of_nat (String.length s) in
  let a := bound len lo in
  let b := bound len hi in
  String.substring (Z.to_nat a) (Z.to_nat (b - a)) s.

(** [s.split(sep)] for a one-character [sep]; never the empty list *)
Fixpoint split (sep : ascii) (s : string) : list string :=
  match s with
  | EmptyString => [""]
  | String c s' =>
      if Ascii.eqb c sep then "" :: split sep s'
      else match split sep s' with
           | w :: ws => String c w :: ws
           | [] => [String c ""]
           end
  end.

Definition lower_char (c : ascii) : ascii :=
  let n := N_of_ascii c in
  if (N.leb 65 n && N.leb n 90)%bool then ascii_of_N (n + 32) else c.

(** [s.lower()] *)
Fixpoint lower (s : string) : string :=
  match s with
  | EmptyString => ""
  | String c s' => String (lower_char c) (lower s')
  end.

(** The bytes [bytes.strip()] removes: space, \t, \n, \v, \f, \r. *)
Definition is_space (c : ascii) : bool :=
  let n := N_of_ascii c in
  (N.eqb n 32 || (N.leb 9 n && N.leb n 13))%bool.

Fixpoint lstrip (s : string) : string :=
  match s with
  | String c s' => if is_space c then lstrip s' else s
  | EmptyString => ""
  end.

Fixpoint rstrip (s : string) : string :=
  match s with
  | String c s' =>
      match rstrip s' with
      | EmptyString => if is_space c then "" else String c ""
      | r => String c r
      end
  | EmptyString => ""
  end.

(** [s.strip()] *)
Definition strip (s : string) : string := rstrip (lstrip s).

(** [bytes.splitlines()]: lines end at \n, \r or \r\n; the line breaks are
    dropped, and no empty line is reported after a final line break. *)
Fixpoint splitlines_from (cur : string) (s : string) : list string :=
  match s with
  | EmptyString => match cur with EmptyString => [] | _ => [cur] end
  | String c s' =>
      if Ascii.eqb c nl then cur :: splitlines_from "" s'
      else if Ascii.eqb c "013"%char then
        match s' with
        | String c' s'' =>
            if Ascii.eqb c' nl then cur :: splitlines_from "" s''
            else cur :: splitlines_from "" s'
        | EmptyString => [cur]
        end
      else splitlines_from (cur +:+ String c "") s'
  end.

Definition splitlines (s : string) : list string := splitlines_from "" s.

Fixpoint is_ascii (s : string) : bool :=
  match s with
  | EmptyString => true
  | String c s' => N.ltb (N_of_ascii c) 128 && is_ascii s'
  end.

(** [b.decode()] with the ASCII codec *)
Definition decode (b : string) : result string :=
  if is_ascii b then Ok b else Raise UnicodeDecodeError.

(** [s.endswith(c)] for a one-character [c] *)
Fixpoint endswith (c : ascii) (s : string) : bool :=
  match s with
  | EmptyString => false
  | String c' EmptyString => Ascii.eqb c' c
  | String _ s' => endswith c s'
  end.

(** [os.path.join(a, b)] for a relative [b] *)
Definition path_join (a b : string) : string :=
  match a with
  | EmptyString => b
  | _ => if endswith "/" a then a +:+ b else a +:+ "/" +:+ b
  end.

(** [bool(xs)] for a list *)
Definition bool_of_list {A : Type} (xs : list A) : bool :=
  match xs with
  | [] => false
  | _ :: _ => true
  end.

(** [xs[i]] *)
Definition index {A : Type} (xs : list A) (i : nat) : result A :=
  match xs !! i with
  | Some x => Ok x
  | None => Raise IndexError
  end.

(** [d[k]] *)
Definition getitem {V : Type} (d : gmap string V) (k : string) : result V :=
  match d !! k with
  | Some v => Ok v
  | None => Raise (KeyError k)
  end.

(** [k in d.keys()] *)
Definition has_key {V : Type} (d : gmap string V) (k : string) : bool :=
  bool_decide (is_Some (d !! k)).

(** [d.keys()] and [list(d.values())] *)
Definition keys {V : Type} (d : gmap string V) : list string :=
  (map_to_list d).*1.
Definition values {V : Type} (d : gmap string V) : list V :=
  (map_to_list d).*2.

End Py.

(** ** The regular expressions of the [re] module that the parsers use *)

Module Re.

(** One pattern character: a literal, [.], or a class [[...]] given by its
    ranges. *)
Inductive cset : Type :=
| Lit (c : ascii)
| Dot
| Ranges (rs : list (ascii * ascii)).

Inductive atom : Type :=
| One (p : cset)      (* p *)
| Plus (p : cset)     (* p+ , greedy *)
| GroupOpen           (* ( *)
| GroupClose          (* ) *)
| Eol.                (* $ *)

Definition regex : Type := list atom.

Definition in_range (c : ascii) (r : ascii * ascii) : bool :=
  (N.leb (N_of_ascii r.1) (N_of_ascii c) && N.leb (N_of_ascii c) (N_of_ascii r.2))%bool.

Definition accepts (p : cset) (c : ascii) : bool :=
  match p with
  | Lit c' => Ascii.eqb c c'
  | Dot => negb (Ascii.eqb c Py.nl)
  | Ranges rs => existsb (in_range c) rs
  end.

(** The groups closed so far, in order, and the text of the open group. *)
Definition caps : Type := list string * option string.

Definition push (c : ascii) (st : caps) : caps :=
  (st.1, (λ g, g +:+ String c "") <$> st.2).
Definition open_group (st : caps) : caps := (st.1, Some "").
Definition close_group (st : caps) : caps :=
  (st.1 ++ [default "" st.2], None).

(** [$] matches at the end of the text and before a final newline. *)
Definition at_end (s : string) : bool :=
  match s with
  | EmptyString => true
  | String c EmptyString => Ascii.eqb c Py.nl
  | _ => false
  end.

(** [p*] followed by the rest of the pattern [k]: the longest run first,
    giving characters back one at a time while [k] fails. *)
Fixpoint star (p : cset) (k : string → caps → option caps)
    (s : string) (st : caps) : option caps :=
  match s with
  | String c s' =>
      if accepts p c then
        match star p k s' (push c st) with
        | Some r => Some r
        | None => k s st
        end
      else k s st
  | EmptyString => k s st
  end.

(** Match the pattern at the start of [s]. *)
Fixpoint match_here (r : regex) : string → caps → option caps :=
  match r with
  | [] => λ _ st, Some st
  | a :: r' =>
      let k := match_here r' in
      match a with
      | One p => λ s st,
          match s with
          | String c s' => if accepts p c then k s' (push c st) else None
          | EmptyString => None
          end
      | Plus p => λ s st,
          match s with
          | String c s' => if accepts p c then star p k s' (push c st) else None
          | EmptyString => None
          end
      | GroupOpen => λ s st, k s (open_group st)
      | GroupClose => λ s st, k s (close_group st)
      | Eol => λ s st, if at_end s then k s st else None
      end
  end.

(** [re.search(r, s)]: the leftmost match; [None] when there is none,
    else the texts of the groups, group 1 first. *)
Fixpoint search (r : regex) (s : string) : option (list string) :=
  match match_here r s ([], None) with
  | Some st => Some st.1
  | None =>
      match s with
      | String _ s' => search r s'
      | EmptyString => None
      end
  end.

(** [m.group(i)] for [i >= 1], on the value [re.search] returned. *)
Definition group (m : option (list string)) (i : nat) : result string :=
  match m with
  | None => Raise (AttributeError "NoneType" "group")
  | Some gs => Py.index gs (pred i)
  end.

Fixpoint lit (s : string) : regex :=
  match s with
  | EmptyString => []
  | String c s' => One (Lit c) :: lit s'
  end.

Definition digit : cset := Ranges [("0", "9")]%char.

End Re.

Import Re.

(** The patterns, as the source writes them. *)

(** ['Listener (.+) is enabled'] *)
Definition re_listener_name : regex :=
  lit "Listener " ++ [GroupOpen; Plus Dot; GroupClose] ++ lit " is enabled".

(** ['Endpoints: (.+)'] *)
Definition re_endpoints : regex :=
  lit "Endpoints: " ++ [GroupOpen; Plus Dot; GroupClose].

(** ['SCAN Listener (.+) exists. Port: (.+)'] *)
Definition re_scan_listener_port : regex :=
  lit "SCAN Listener " ++ [GroupOpen; Plus Dot; GroupClose] ++ lit " exists"
  ++ [One Dot] ++ lit " Port: " ++ [GroupOpen; Plus Dot; GroupClose].

(** ['Network ([0-9]+) exists'] *)
Definition re_network : regex :=
  lit "Network " ++ [GroupOpen; Plus digit; GroupClose] ++ lit " exists".

(** ['network number ([0-9]+),'] *)
Definition re_network_number : regex :=
  lit "network number " ++ [GroupOpen; Plus digit; GroupClose] ++ lit ",".

(** ['SCAN name: (.+), Network: ([0-9]+)'] *)
Definition re_scan_name : regex :=
  lit "SCAN name: " ++ [GroupOpen; Plus Dot; GroupClose] ++ lit ", Network: "
  ++ [GroupOpen; Plus digit; GroupClose].

(** ['SCAN [0-9]+ (IPv[46]) VIP: (.+)'] *)
Definition re_scan_vip : regex :=
  lit "SCAN " ++ [Plus digit] ++ lit " "
  ++ [GroupOpen] ++ lit "IPv" ++ [One (Ranges [("4", "4"); ("6", "6")]%char); GroupClose]
  ++ lit " VIP: " ++ [GroupOpen; Plus Dot; GroupClose].

(** ['\[([0-9\.]+)\]$'] *)
Definition re_version : regex :=
  [One (Lit "["); GroupOpen; Plus (Ranges [("0", "9"); (".", ".")]%char);
   GroupClose; One (Lit "]"); Eol].

(** ** Values, records and the host *)

(** What the records hold: text, or (the addresses of a SCAN) a list of
    texts. *)
Inductive value : Type :=
| Str (s : string)
| Strs (l : list string).

(** A record (a network, VIP, SCAN, listener or SCAN listener) is a Python
    dict from field name to value. *)
Abbreviation entity := (gmap string value).

(** A value used as a dict key: text is hashable, a list is not. *)
Definition as_key (v : value) : result string :=
  match v with
  | Str s => Ok s
  | Strs _ => Raise TypeError
  end.

(** [check_output(arguments)]: the captured standard output, or
    [CalledProcessError] for a non-zero exit status. *)
Inductive completed : Type :=
| Exit0 (stdout : string)
| CalledProcessError.

Record World : Type := {
  check_output : list string → completed;
  gethostname : string;
  getfqdn : string → string
}.

(** The entries of the facts dictionary. *)
Inductive factv : Type :=
| FStr (s : string)
| FLines (l : list string)
| FEntities (l : list entity).

(** What a run of [main] leaves: the global [iscrs] and the facts handed to
    [exit_json]. *)
Record Run : Type := {
  run_iscrs : bool;
  run_facts : gmap string factv
}.

(** [if "network" in item.keys(): out[item['network']] = item] *)
Definition flush (out : gmap string entity) (item : entity)
  : result (gmap string entity) :=
  if Py.has_key item "network" then
    v ← Py.getitem item "network";
    k ← as_key v;
    mret (<[k := item]> out)
  else mret out.

(** [for proto in endpoints.split('/'): p = proto.split(':');
    d[p[0].lower()] = p[1]] (the right-hand side is evaluated first). *)
Definition set_protocol (proto : string) (d : entity) : result entity :=
  let p := Py.split ":" proto in
  port ← Py.index p 1;
  name ← Py.index p 0;
  mret (<[Py.lower name := Str port]> d).

Definition set_protocols (endpoints : string) (d : entity) : result entity :=
  for_each set_protocol (Py.split "/" endpoints) d.

Section Host.

Context (w : World).

(** *** The command runner *)

Definition exec_program_lines (arguments : list string) : result (list string) :=
  match check_output w arguments with
  | Exit0 output =>
      mapM (λ line, Py.decode (Py.strip line)) (Py.splitlines output)
  | CalledProcessError =>
      (* Just ignore the error *)
      Ok [""]
  end.

Definition exec_program (arguments : list string) : result string :=
  lines ← exec_program_lines arguments;
  Py.index lines 0.

Definition hostname_to_fqdn (hostname : string) : string :=
  if negb (Py.contains "." hostname) then getfqdn w hostname else hostname.

(** *** Networks *)

Definition get_networks_line (line : string) (st : gmap string entity * entity)
  : result (gmap string entity * entity) :=
  let '(out, item) := st in
  let m := search re_network line in
  match m with
  | Some _ =>
      out ← flush out item;
      g ← group m 1;
      mret (out, {["network" := Str g]})
  | None =>
      if Py.startswith "Subnet IPv4:" line then
        mret (out, <["ipv4" := Str (Py.from 13 line)]> item)
      else if Py.startswith "Subnet IPv6:" line then
        mret (out, <["ipv6" := Str (Py.from 13 line)]> item)
      else mret (out, item)
  end.

(** The body of [get_networks] after the command has run. *)
Definition get_networks_lines (output : list string) : result (gmap string entity) :=
  st ← for_each get_networks_line output (∅, ∅);
  flush st.1 st.2.

(** *** VIPs *)

Definition get_vips_line (line : string) (st : gmap string entity * entity)
  : result (gmap string entity * entity) :=
  let '(out, vip) := st in
  if Py.startswith "VIP exists:" line then
    out ← flush out vip;
    let m := search re_network_number line in
    g ← group m 1;
    mret (out, {["network" := Str g]})
  else if Py.startswith "VIP Name:" line then
    let name := Py.from 10 line in
    mret (out, <["fqdn" := Str (hostname_to_fqdn name)]> (<["name" := Str name]> vip))
  else if Py.startswith "VIP IPv4 Address:" line then
    mret (out, <["ipv4" := Str (Py.from 18 line)]> vip)
  else if Py.startswith "VIP IPv6 Address:" line then
    mret (out, <["ipv6" := Str (Py.from 18 line)]> vip)
  else mret (out, vip).

Definition get_vips_lines (output : list string) : result (gmap string entity) :=
  st ← for_each get_vips_line output (∅, ∅);
  flush st.1 st.2.

(** *** SCANs *)

(** [item[k] += [x]] *)
Definition append_to (item : entity) (k : string) (x : string) : result entity :=
  v ← Py.getitem item k;
  match v with
  | Strs l => mret (<[k := Strs (l ++ [x])]> item)
  | Str _ => Raise TypeError
  end.

Definition get_scans_line (line : string) (st : gmap string entity * entity)
  : result (gmap string entity * entity) :=
  let '(out, item) := st in
  if Py.startswith "SCAN name:" line then
    out ← flush out item;
    let m := search re_scan_name line in
    network ← group m 2;
    name ← group m 1;
    let item : entity :=
      <["ipv6" := Strs []]> (<["ipv4" := Strs []]>
        (<["name" := Str name]> {["network" := Str network]})) in
    mret (out, <["fqdn" := Str (hostname_to_fqdn name)]> item)
  else
    let m := search re_scan_vip line in
    match m with
    | Some _ =>
        family ← group m 1;
        address ← group m 2;
        item ← append_to item (Py.lower family) address;
        mret (out, item)
    | None => mret (out, item)
    end.

Definition get_scans_lines (output : list string) : result (gmap string entity) :=
  st ← for_each get_scans_line output (∅, ∅);
  flush st.1 st.2.

Section Globals.

(** The module's globals, set by [main] before the parsers run. *)
Context (srvctl shorthostname : string) (iscrs : bool).
Context (vips networks scans : gmap string entity).

Definition get_networks : result (gmap string entity) :=
  output ← exec_program_lines [srvctl; "config"; "network"];
  get_networks_lines output.

Definition get_vips : result (gmap string entity) :=
  output ← exec_program_lines [srvctl; "config"; "vip"; "-n"; shorthostname];
  get_vips_lines output.

Definition get_scans : result (gmap string entity) :=
  output ← exec_program_lines [srvctl; "config"; "scan"; "-all"];
  get_scans_lines output.

(** *** Listeners *)

(** First loop of [local_listener]: the names of the enabled listeners. *)
Definition listener_name_line (line : string) (listeners : list string)
  : result (list string) :=
  if Py.contains "is enabled" line then
    let m := search re_listener_name line in
    g ← group m 1;
    mret (listeners ++ [g])
  else mret listeners.

(** The loop over the lines of [srvctl config listener -l <name>]. *)
Definition listener_config_line (line : string) (config : entity)
  : result entity :=
  if Py.startswith "Name:" line then
    mret (<["name" := Str (Py.from 6 line)]> config)
  else if Py.startswith "Type:" line then
    mret (<["type" := Str (Py.from 6 line)]> config)
  else if Py.startswith "Network:" line then
    mret (<["network" := Str (Py.slice 9 (Py.find "," line) line)]> config)
  else if Py.startswith "End points:" line then
    let endpoints := Py.from 12 line in
    set_protocols endpoints (<["endpoints" := Str endpoints]> config)
  else mret config.

(** [config[field] = vips[config['network']][key]] *)
Definition copy_from_vip (field key : string) (config : entity) : result entity :=
  n ← Py.getitem config "network";
  k ← as_key n;
  vip ← Py.getitem vips k;
  v ← Py.getitem vip key;
  mret (<[field := v]> config).

(** The cross-reference at the end of the loop body. *)
Definition resolve_listener (config : entity) : result entity :=
  if Py.has_key config "network" then
    config ← copy_from_vip "address" "fqdn" config;
    config ← copy_from_vip "ipv4" "ipv4" config;
    copy_from_vip "ipv6" "ipv6" config
  else mret config.

(** [config] as the loop over the output of
    [srvctl config listener -l <l>] leaves it. *)
Definition listener_config (l : string) : result entity :=
  output ← exec_program_lines [srvctl; "config"; "listener"; "-l"; l];
  for_each listener_config_line output ∅.

(** One turn of [for l in listeners]. *)
Definition listener (l : string) (out : list entity) : result (list entity) :=
  config ← listener_config l;
  config ← resolve_listener config;
  mret (out ++ [config]).

(** [listeners] as the first loop leaves it. *)
Definition listener_names : result (list string) :=
  let args := [srvctl; "status"; "listener"] in
  let args := if iscrs then args ++ ["-n"; shorthostname] else args in
  listeners_out ← exec_program_lines args;
  for_each listener_name_line listeners_out [].

Definition local_listener : result (list entity) :=
  listeners ← listener_names;
  for_each listener listeners [].

(** *** SCAN listeners *)

(** What one line yields for [endpoints]: the current format (19c)
    first, the format of 18c and 12c when the first does not match. *)
Definition line_endpoints (line : string) : result (option string) :=
  let m := search re_endpoints line in
  match m with
  | Some _ => g ← group m 1; mret (Some g)
  | None =>
      let m := search re_scan_listener_port line in
      match m with
      | Some _ => g ← group m 2; mret (Some g)
      | None => mret None
      end
  end.

(** [if endpoints:] *)
Definition truthy (endpoints : option string) : bool :=
  match endpoints with
  | Some (String _ _) => true
  | _ => false
  end.

(** The record built for network [n] when [endpoints] was found. *)
Definition scan_listener_record (n endpoints : string) : result entity :=
  scan ← Py.getitem scans n;
  fqdn ← Py.getitem scan "fqdn";
  scan ← Py.getitem scans n;
  ipv4 ← Py.getitem scan "ipv4";
  scan ← Py.getitem scans n;
  ipv6 ← Py.getitem scan "ipv6";
  let rec : entity :=
    <["ipv6" := ipv6]> (<["ipv4" := ipv4]> (<["endpoints" := Str endpoints]>
      (<["scan_address" := fqdn]> {["network" := Str n]}))) in
  set_protocols endpoints rec.

(** [for line in output: ...; if endpoints: ...; break] *)
Fixpoint scan_listener_lines (n : string) (output : list string)
    (out : gmap string entity) : result (gmap string entity) :=
  match output with
  | [] => Ok out
  | line :: output' =>
      endpoints ← line_endpoints line;
      if truthy endpoints then
        rec ← scan_listener_record n (default "" endpoints);
        mret (<[n := rec]> out)
      else scan_listener_lines n output' out
  end.

(** One turn of [for n in networks.keys()]. *)
Definition scan_listener_network (n : string) (out : gmap string entity)
  : result (gmap string entity) :=
  output ← exec_program_lines [srvctl; "config"; "scan_listener"; "-k"; n];
  scan_listener_lines n output out.

Definition scan_listener : result (gmap string entity) :=
  for_each scan_listener_network (Py.keys networks) ∅.

End Globals.

End Host.

(** ** Fact assembly *)

(** [os.path.join(os.environ['ORACLE_HOME'], 'bin', name)] *)
Definition tool (oracle_home name : string) : string :=
  Py.path_join (Py.path_join oracle_home "bin") name.

Section Main.

Context (w : World).

(** The four [crsctl query has] sub-queries of Oracle Restart. *)
Definition restart_queries : list string :=
  ["releaseversion"; "releasepatch"; "softwareversion"; "softwarepatch"].

(** One turn of [for i in ['releaseversion', ...]]. *)
Definition restart_version (crsctl i : string) (facts : gmap string factv)
  : result (gmap string factv) :=
  version ← exec_program w [crsctl; "query"; "has"; i];
  let m := search re_version version in
  match m with
  | Some _ =>
      g ← group m 1;
      let facts := <[i := FStr g]> facts in
      g ← group m 1;
      mret (<["version" := FStr g]> facts) (* for backward compatibility *)
  | None => mret (<[i := FStr version]> facts)
  end.

(** [main], from the point where [os.environ['ORACLE_HOME']] is set: the
    preparation block before it only chooses that directory. *)
Definition main (oracle_home : string) : result Run :=
  let srvctl := tool oracle_home "srvctl" in
  let crsctl := tool oracle_home "crsctl" in
  let cemutlo := tool oracle_home "cemutlo" in
  let olsnodes := tool oracle_home "olsnodes" in
  (* Lets assume that empty output form olsnodes means we're on Oracle Restart *)
  nodes ← exec_program_lines w [olsnodes];
  let iscrs := Py.bool_of_list nodes in
  let hostname := gethostname w in
  shorthostname ← Py.index (Py.split "." hostname) 0;
  (* Cluster name *)
  clustername ← exec_program w [cemutlo; "-n"];
  let facts : gmap string factv := {["clustername" := FStr clustername]} in
  (* Cluster version *)
  facts ← (if iscrs then
             _ ← exec_program w [crsctl; "query"; "crs"; "activeversion"];
             mret facts
           else for_each (restart_version crsctl) restart_queries facts);
  (* VIPS *)
  vips ← get_vips w srvctl shorthostname;
  let facts := <["vip" := FEntities (Py.values vips)]> facts in
  (* Networks *)
  networks ← get_networks w srvctl;
  let facts := <["network" := FEntities (Py.values networks)]> facts in
  (* SCANs *)
  scans ← get_scans w srvctl;
  let facts := <["scan" := FEntities (Py.values scans)]> facts in
  (* Listener *)
  listeners ← local_listener w srvctl shorthostname iscrs vips;
  let facts := <["local_listener" := FEntities listeners]> facts in
  scan_listeners ← (if iscrs then
                      out ← scan_listener w srvctl networks scans;
                      mret (Py.values out)
                    else mret []);
  let facts := <["scan_listener" := FEntities scan_listeners]> facts in
  (* Databases *)
  database_list ← exec_program_lines w [srvctl; "config"; "database"];
  let facts := <["database_list" := FLines database_list]> facts in
  (* ORACLE_CRS_HOME *)
  let facts := <["oracle_crs_home" := FStr oracle_home]> facts in
  mret {| run_iscrs := iscrs; run_facts := facts |}.

End Main.

(** ** Vocabulary of the statements *)

(** The number of groups of a pattern. *)
Fixpoint groups (r : regex) : nat :=
  match r with
  | [] => 0
  | GroupClose :: r' => S (groups r')
  | _ :: r' => groups r'
  end.

(** Every character of [s] is accepted by [p]. *)
Fixpoint all_chars (p : cset) (s : string) : bool :=
  match s with
  | EmptyString => true
  | String c s' => accepts p c && all_chars p s'
  end.

(** [c] does not occur in [s]. *)
Fixpoint free_of (c : ascii) (s : string) : bool :=
  match s with
  | EmptyString => true
  | String c' s' => negb (Ascii.eqb c' c) && free_of c s'
  end.

(** [sep.join(xs)] *)
Fixpoint join (sep : ascii) (xs : list string) : string :=
  match xs with
  | [] => ""
  | x :: xs' =>
      match xs' with
      | [] => x
      | _ :: _ => x +:+ String sep (join sep xs')
      end
  end.

(** A record under construction has no network id yet, or a text one. *)
Definition keyed (item : entity) : Prop :=
  ∀ v, item !! "network" = Some v → ∃ k, v = Str k.

(** A line [get_networks] has no branch for. *)
Definition ignored_by_get_networks (line : string) : Prop :=
  search re_network line = None ∧
  Py.startswith "Subnet IPv4:" line = false ∧
  Py.startswith "Subnet IPv6:" line = false.

(** The record a [SCAN name:] line opens. *)
Definition new_scan (w : World) (name network : string) : entity :=
  <["fqdn" := Str (hostname_to_fqdn w name)]> (<["ipv6" := Strs []]>
    (<["ipv4" := Strs []]> (<["name" := Str name]> {["network" := Str network]}))).

(** The line [srvctl config scan -all] prints for an IPv4 address of a
    SCAN, and the addresses it can carry: not empty, on one line. *)
Definition scan_ipv4_line (address : string) : string := "SCAN 1 IPv4 VIP: " +:+ address.
Definition address_text (a : string) : Prop := a ≠ "" ∧ all_chars Dot a = true.

(** A line in one of the two formats of [srvctl config scan_listener]. *)
Definition has_endpoints (line : string) : Prop :=
  is_Some (search re_endpoints line) ∨ is_Some (search re_scan_listener_port line).

#[global] Instance has_endpoints_dec (line : string) : Decision (has_endpoints line) :=
  or_dec _ _.


(** A [protocol:port] token of an end-points specification, and the pairs
    whose token splits back into them: no [/] and no [:] inside. *)
Definition endpoint (p : string * string) : string := p.1 +:+ String ":" p.2.
Definition endpoint_text (p : string * string) : Prop :=
  free_of "/" p.1 = true ∧ free_of ":" p.1 = true ∧
  free_of "/" p.2 = true ∧ free_of ":" p.2 = true.

(** The entry of the facts under [key] and the global [iscrs], when [main]
    returned. *)
Definition fact_of (r : result Run) (key : string) : option factv :=
  match r with
  | Ok r => run_facts r !! key
  | Raise _ => None
  end.
Definition iscrs_of (r : result Run) : option bool :=
  match r with
  | Ok r => Some (run_iscrs r)
  | Raise _ => None
  end.

(** ** A test host *)

Module Sample.

Definition lines (ls : list string) : completed :=
  Exit0 (foldr (λ l s, l +:+ String Py.nl s) "" ls).

(** A two-node cluster with one network, a SCAN with two addresses and
    one listener.  [olsnodes] is a parameter: it prints the node names,
    prints nothing, or fails. *)
Definition answers (olsnodes : completed) (arguments : list string) : completed :=
  match arguments with
  | ["/u01/grid/bin/olsnodes"] => olsnodes
  | ["/u01/grid/bin/cemutlo"; "-n"] => lines ["crs-test"]
  | ["/u01/grid/bin/crsctl"; "query"; "crs"; "activeversion"] =>
      lines ["Oracle Clusterware active version on the cluster is [19.0.0.0.0]"]
  | ["/u01/grid/bin/crsctl"; "query"; "has"; "releaseversion"] =>
      lines ["Oracle High Availability Services release version on the local node is [19.0.0.0.0]"]
  | ["/u01/grid/bin/crsctl"; "query"; "has"; "releasepatch"] =>
      lines ["Oracle Clusterware release patch level is [3331580692] and the complete list of patches is [29517242] ."]
  | ["/u01/grid/bin/crsctl"; "query"; "has"; "softwareversion"] =>
      lines ["Oracle High Availability Services version on the local node is [19.0.0.0.1]"]
  | ["/u01/grid/bin/crsctl"; "query"; "has"; "softwarepatch"] =>
      lines ["Oracle Clusterware patch level on node n1 is [724960844]"]
  | ["/u01/grid/bin/srvctl"; "config"; "vip"; "-n"; "n1"] =>
      lines ["VIP exists: network number 1, hosting node n1";
             "VIP Name: n1-vip.example.com";
             "VIP IPv4 Address: 10.0.0.11";
             "VIP IPv6 Address:"]
  | ["/u01/grid/bin/srvctl"; "config"; "network"] =>
      lines ["Network 1 exists";
             "Subnet IPv4: 10.0.0.0/255.255.255.0/eth0, static";
             "Subnet IPv6:"]
  | ["/u01/grid/bin/srvctl"; "config"; "scan"; "-all"] =>
      lines ["SCAN name: scan.example.com, Network: 1";
             "Subnet IPv4: 10.0.0.0/255.255.255.0/eth0, static";
             "SCAN 1 IPv4 VIP: 10.0.0.21";
             "SCAN 2 IPv4 VIP: 10.0.0.22"]
  | ["/u01/grid/bin/srvctl"; "status"; "listener"; "-n"; "n1"]
  | ["/u01/grid/bin/srvctl"; "status"; "listener"] =>
      lines ["Listener LISTENER is enabled on node(s): n1";
             "Listener LISTENER is running on node(s): n1"]
  | ["/u01/grid/bin/srvctl"; "config"; "listener"; "-l"; "LISTENER"] =>
      lines ["Name: LISTENER";
             "Type: Database Listener";
             "Network: 1, Owner: grid";
             "End points: TCP:1521/TCPS:1522"]
  | ["/u01/grid/bin/srvctl"; "config"; "scan_listener"; "-k"; "1"] =>
      lines ["SCAN Listeners for network 1:";
             "Endpoints: TCP:1521";
             "SCAN Listener LISTENER_SCAN1 exists"]
  | ["/u01/grid/bin/srvctl"; "config"; "database"] => lines ["orcl"]
  | _ => CalledProcessError
  end.

Definition host (olsnodes : completed) : World :=
  {| check_output := answers olsnodes;
     gethostname := "n1.example.com";
     getfqdn := λ h, h +:+ ".example.com" |}.

(** The same host with another answer to one command. *)
Definition override (arguments : list string) (c : completed) (w : World) : World :=
  {| check_output := λ a, if decide (a = arguments) then c else check_output w a;
     gethostname := gethostname w;
     getfqdn := getfqdn w |}.

Definition home : string := "/u01/grid".
Definition srvctl : string := "/u01/grid/bin/srvctl".

(** [olsnodes] lists the nodes, prints nothing (Oracle Restart), or exits
    with a non-zero status. *)
Definition cluster : World := host (lines ["n1"; "n2"]).
Definition restart : World := host (lines []).
Definition failed_olsnodes : World := host CalledProcessError.


(** [srvctl config scan -all] fails: no SCAN is known for network 1. *)
Definition no_scan : World :=
  override [srvctl; "config"; "scan"; "-all"] CalledProcessError cluster.

(** What the parsers build on [cluster]. *)
Definition vips : gmap string entity :=
  {["1" := <["ipv6" := Str ""]> (<["ipv4" := Str "10.0.0.11"]>
             (<["fqdn" := Str "n1-vip.example.com"]>
                (<["name" := Str "n1-vip.example.com"]> {["network" := Str "1"]})))]}.

Definition networks : gmap string entity :=
  {["1" := <["ipv6" := Str ""]>
             (<["ipv4" := Str "10.0.0.0/255.255.255.0/eth0, static"]>
                {["network" := Str "1"]})]}.

Definition scans : gmap string entity :=
  {["1" := <["fqdn" := Str "scan.example.com"]> (<["ipv6" := Strs []]>
             (<["ipv4" := Strs ["10.0.0.21"; "10.0.0.22"]]>
                (<["name" := Str "scan.example.com"]> {["network" := Str "1"]})))]}.

Definition listener_record : entity :=
  <["ipv6" := Str ""]> (<["ipv4" := Str "10.0.0.11"]>
    (<["address" := Str "n1-vip.example.com"]>
      (<["tcps" := Str "1522"]> (<["tcp" := Str "1521"]>
        (<["endpoints" := Str "TCP:1521/TCPS:1522"]> (<["network" := Str "1"]>
          (<["type" := Str "Database Listener"]> {["name" := Str "LISTENER"]}))))))).

Definition scan_listener_record : entity :=
  <["tcp" := Str "1521"]> (<["ipv6" := Strs []]>
    (<["ipv4" := Strs ["10.0.0.21"; "10.0.0.22"]]>
      (<["endpoints" := Str "TCP:1521"]> (<["scan_address" := Str "scan.example.com"]>
        {["network" := Str "1"]})))).

Definition scan_listener_output : list string :=
  ["SCAN Listeners for network 1:"; "Endpoints: TCP:1521";
   "SCAN Listener LISTENER_SCAN1 exists"].

Definition run_of (r : result Run) : Run :=
  match r with
  | Ok r => r
  | Raise _ => {| run_iscrs := false; run_facts := ∅ |}
  end.

(** The run of [main] on [restart]. *)
Definition restart_run : Run := Eval vm_compute in run_of (main restart home).

(** What [crsctl query has <i>] answers on [restart]. *)
Definition restart_answer (i : string) : string :=
  match exec_program restart ["/u01/grid/bin/crsctl"; "query"; "has"; i] with
  | Ok version => version
  | Raise _ => ""
  end.

Definition scan_header : string := "SCAN name: scan.example.com, Network: 1".
Definition malformed_vip_line : string := "VIP exists: on node n1".
Definition legacy_line : string := "SCAN Listener LISTENER_SCAN1 exists. Port: TCP:1521".
Definition current_line : string := "Endpoints: TCP:1521".

End Sample.

(** ** Vocabulary of the further properties *)

(** A network id as the patterns capture it: a non-empty run of digits. *)
Definition network_id (k : string) : Prop := k ≠ "" ∧ all_chars digit k = true.

(** A network record: its id, and nothing but text under the three fields. *)
Definition network_record (k : string) (item : entity) : Prop :=
  item !! "network" = Some (Str k) ∧ network_id k ∧
  ∀ f v, item !! f = Some v →
         (f = "network" ∨ f = "ipv4" ∨ f = "ipv6") ∧ ∃ s, v = Str s.

(** The record [get_networks] is filling: as a network record, but the id
    may still be missing. *)
Definition pending_network (item : entity) : Prop :=
  (∀ v, item !! "network" = Some v → ∃ k, v = Str k ∧ network_id k) ∧
  ∀ f v, item !! f = Some v →
         (f = "network" ∨ f = "ipv4" ∨ f = "ipv6") ∧ ∃ s, v = Str s.

(** A VIP has an fqdn exactly when it has a name, derived from it. *)
Definition named (w : World) (vip : entity) : Prop :=
  match vip !! "name" with
  | Some n => ∃ s, n = Str s ∧ vip !! "fqdn" = Some (Str (hostname_to_fqdn w s))
  | None => vip !! "fqdn" = None
  end.

(** A VIP record, and the record [get_vips] is filling. *)
Definition vip_record (w : World) (k : string) (vip : entity) : Prop :=
  vip !! "network" = Some (Str k) ∧ network_id k ∧ named w vip.
Definition pending_vip (w : World) (vip : entity) : Prop :=
  (∀ v, vip !! "network" = Some v → ∃ k, v = Str k ∧ network_id k) ∧ named w vip.

(** A SCAN record: its id, name, fqdn and the two address lists; the
    record [get_scans] is filling is empty or such a record. *)
Definition scan_record (w : World) (k : string) (item : entity) : Prop :=
  item !! "network" = Some (Str k) ∧ network_id k ∧
  ∃ name ipv4 ipv6,
    name ≠ "" ∧ item !! "name" = Some (Str name) ∧
    item !! "fqdn" = Some (Str (hostname_to_fqdn w name)) ∧
    item !! "ipv4" = Some (Strs ipv4) ∧ item !! "ipv6" = Some (Strs ipv6).
Definition pending_scan (w : World) (item : entity) : Prop :=
  item = ∅ ∨ ∃ k, scan_record w k item.


(** A line [get_scans] has no branch for. *)
Definition ignored_by_get_scans (line : string) : Prop :=
  Py.startswith "SCAN name:" line = false ∧ search re_scan_vip line = None.


(** A line with [is enabled] from which the listener name can be read. *)
Definition listener_line_ok (line : string) : Prop :=
  Py.contains "is enabled" line = true → is_Some (search re_listener_name line).

(** The names the first loop of [local_listener] collects. *)
Definition enabled_names (lines : list string) : list string :=
  flat_map (λ line, if Py.contains "is enabled" line then
                      match search re_listener_name line with
                      | Some [g] => [g]
                      | _ => []
                      end
                    else []) lines.

(** [rec] is the record of the listener [l]: its configuration, resolved. *)
Definition listener_of (w : World) (srvctl : string) (vips : gmap string entity)
    (l : string) (rec : entity) : Prop :=
  ∃ config, listener_config w srvctl l = Ok config ∧
            resolve_listener vips config = Ok rec.

(** The key a token writes: its lower-cased text before the first colon. *)
Definition protocol_key (proto : string) : string :=
  Py.lower (default "" (Py.split ":" proto !! 0)).

(** The facts [main] adds to the version facts [facts]. *)
Definition assembled (facts : gmap string factv) (oracle_home : string)
    (vips networks scans : gmap string entity) (listeners scan_listeners : list entity)
    (database_list : list string) : gmap string factv :=
  <["oracle_crs_home" := FStr oracle_home]> (<["database_list" := FLines database_list]>
    (<["scan_listener" := FEntities scan_listeners]>
      (<["local_listener" := FEntities listeners]>
        (<["scan" := FEntities (Py.values scans)]>
          (<["network" := FEntities (Py.values networks)]>
            (<["vip" := FEntities (Py.values vips)]> facts)))))).

(** The token or, without a bracketed suffix, the raw answer. *)
Definition version_fact (version : string) : string :=
  match search re_version version with
  | Some [t] => t
  | _ => version
  end.

(** Outputs and records of the test host. *)
Module Cases.

Definition vip1 : entity :=
  <["ipv6" := Str ""]> (<["ipv4" := Str "10.0.0.11"]>
    (<["fqdn" := Str "n1-vip.example.com"]>
      (<["name" := Str "n1-vip.example.com"]> {["network" := Str "1"]}))).

Definition network1 : entity :=
  <["ipv6" := Str ""]> (<["ipv4" := Str "10.0.0.0/255.255.255.0/eth0, static"]>
    {["network" := Str "1"]}).

Definition scan1 : entity :=
  <["fqdn" := Str "scan.example.com"]> (<["ipv6" := Strs []]>
    (<["ipv4" := Strs ["10.0.0.21"; "10.0.0.22"]]>
      (<["name" := Str "scan.example.com"]> {["network" := Str "1"]}))).

Definition vip_output : list string :=
  ["VIP exists: network number 1, hosting node n1"; "VIP Name: n1-vip.example.com";
   "VIP IPv4 Address: 10.0.0.11"; "VIP IPv6 Address:"].

Definition network_output : list string :=
  ["Network 1 exists"; "Subnet IPv4: 10.0.0.0/255.255.255.0/eth0, static"; "Subnet IPv6:"].

Definition scan_output : list string :=
  ["SCAN name: scan.example.com, Network: 1";
   "Subnet IPv4: 10.0.0.0/255.255.255.0/eth0, static";
   "SCAN 1 IPv4 VIP: 10.0.0.21"; "SCAN 2 IPv4 VIP: 10.0.0.22"].

(** The run of [main] on [Sample.cluster]. *)
Definition cluster_run : Run :=
  Eval vm_compute in Sample.run_of (main Sample.cluster Sample.home).

End Cases.

(** * Properties *)

(** ** The embedding on sample text *)

Example search_version_bracket :
  search re_version
    "Oracle High Availability Services release version on the local node is [19.0.0.0.0]"
  = Some ["19.0.0.0.0"].
Proof. reflexivity. Qed.

Example search_version_not_trailing : search re_version "level is [12] and more" = None.
Proof. reflexivity. Qed.

Example search_greedy_backtracks :
  search re_scan_name "SCAN name: a, Network: 1, Network: 22x" = Some ["a, Network: 1"; "22"].
Proof. reflexivity. Qed.

Example search_network_number :
  search re_network_number "VIP exists: network number 1, hosting node n1" = Some ["1"].
Proof. reflexivity. Qed.

Example search_listener_name :
  search re_listener_name "Listener LISTENER is enabled on node(s): n1" = Some ["LISTENER"].
Proof. reflexivity. Qed.

Example split_endpoints :
  Py.split "/" "TCP:1521/TCPS:1522" = ["TCP:1521"; "TCPS:1522"] ∧ Py.split "/" "" = [""].
Proof. split; reflexivity. Qed.

Example slice_network :
  Py.slice 9 (Py.find "," "Network: 1, Owner: grid") "Network: 1, Owner: grid" = "1" ∧
  Py.slice 9 (Py.find "," "Network: 12") "Network: 12" = "1".
Proof. split; reflexivity. Qed.

Example splitlines_strip :
  Py.splitlines "" = [] ∧
  Py.splitlines (String Py.nl "") = [""] ∧
  Py.strip <$> Py.splitlines ("n1 " +:+ String "013" (String Py.nl " n2")) = ["n1"; "n2"].
Proof. repeat split; reflexivity. Qed.

Example main_on_cluster :
  iscrs_of (main Sample.cluster Sample.home) = Some true ∧
  fact_of (main Sample.cluster Sample.home) "clustername" = Some (FStr "crs-test") ∧
  fact_of (main Sample.cluster Sample.home) "vip" = Some (FEntities [Sample.vips !!! "1"]) ∧
  fact_of (main Sample.cluster Sample.home) "network"
  = Some (FEntities [Sample.networks !!! "1"]) ∧
  fact_of (main Sample.cluster Sample.home) "scan" = Some (FEntities [Sample.scans !!! "1"]) ∧
  fact_of (main Sample.cluster Sample.home) "local_listener"
  = Some (FEntities [Sample.listener_record]) ∧
  fact_of (main Sample.cluster Sample.home) "scan_listener"
  = Some (FEntities [Sample.scan_listener_record]) ∧
  fact_of (main Sample.cluster Sample.home) "database_list" = Some (FLines ["orcl"]) ∧
  fact_of (main Sample.cluster Sample.home) "version" = None.
Proof. vm_compute. repeat split; reflexivity. Qed.

(** ** The [result] monad and the loops *)

Lemma bind_Ok {A B} (r : result A) (f : A → result B) (b : B) :
  r ≫= f = Ok b → ∃ a, r = Ok a ∧ f a = Ok b.
Proof. destruct r as [a|e]; simpl; [eauto | discriminate]. Qed.

Lemma bind_Ok_eq {A B} (a : A) (f : A → result B) : Ok a ≫= f = f a.
Proof. done. Qed.

(** Open a chain of binds that returned. *)
Ltac bind_inv H :=
  repeat (let a := fresh "a" in
          let E := fresh "E" in
          apply bind_Ok in H as (a & E & H)).

Lemma for_each_cons {A S} (body : A → S → result S) x xs st :
  for_each body (x :: xs) st = body x st ≫= for_each body xs.
Proof. done. Qed.

Lemma for_each_app {A S} (body : A → S → result S) xs ys st :
  for_each body (xs ++ ys) st = for_each body xs st ≫= for_each body ys.
Proof.
  revert st. induction xs as [|x xs IH]; intros st; simpl; [done|].
  destruct (body x st) as [st'|e]; simpl; [apply IH | done].
Qed.


(** A loop with a turn that raises in every state raises. *)
Lemma for_each_raises {A S} (body : A → S → result S) xs x :
  x ∈ xs → (∀ st, ∃ e, body x st = Raise e) →
  ∀ st, ∃ e, for_each body xs st = Raise e.
Proof.
  intros Hin Hx. induction xs as [|y xs IH]; intros st.
  - by apply elem_of_nil in Hin.
  - rewrite for_each_cons. apply elem_of_cons in Hin as [<-|Hin].
    + destruct (Hx st) as [e ->]. eauto.
    + destruct (body y st) as [st'|e]; simpl; eauto.
Qed.

(** ** Strings and dicts *)

Lemma append_cons c s t : String c s +:+ t = String c (s +:+ t).
Proof. done. Qed.

Lemma append_empty_l t : "" +:+ t = t.
Proof. done. Qed.

Lemma append_empty_r s : s +:+ "" = s.
Proof. induction s as [|c s IH]; [done|]. by rewrite append_cons, IH. Qed.

Lemma append_assoc s1 s2 s3 : (s1 +:+ s2) +:+ s3 = s1 +:+ (s2 +:+ s3).
Proof. induction s1 as [|c s1 IH]; [done|]. by rewrite !append_cons, IH. Qed.

Lemma append_nonempty g c : g +:+ String c "" ≠ "".
Proof. destruct g; [done|]. by rewrite append_cons. Qed.

Lemma free_of_app c s t : free_of c (s +:+ t) = free_of c s && free_of c t.
Proof.
  induction s as [|c' s IH]; [done|]. rewrite append_cons. simpl.
  by rewrite IH, andb_assoc.
Qed.

Lemma split_cons c s : ∃ x xs, Py.split c s = x :: xs.
Proof.
  induction s as [|c' s (x & xs & IH)]; simpl; [eauto|].
  destruct (Ascii.eqb c' c); [eauto|]. rewrite IH. eauto.
Qed.

Lemma split_free c s : free_of c s = true → Py.split c s = [s].
Proof.
  induction s as [|c' s IH]; simpl; [done|].
  intros [H1 H2]%andb_true_iff. apply negb_true_iff in H1. by rewrite H1, IH.
Qed.

Lemma split_sep c s t :
  free_of c s = true → Py.split c (s +:+ String c t) = s :: Py.split c t.
Proof.
  induction s as [|c' s IH].
  - intros _. change ("" +:+ String c t) with (String c t). simpl.
    by rewrite Ascii.eqb_refl.
  - simpl. intros [H1 H2]%andb_true_iff. apply negb_true_iff in H1.
    rewrite ?append_cons. simpl. by rewrite H1, IH.
Qed.

Lemma split_join c toks :
  toks ≠ [] → Forall (λ t, free_of c t = true) toks → Py.split c (join c toks) = toks.
Proof.
  induction toks as [|t toks IH]; [done|]. intros _ Hall.
  inversion Hall as [|? ? Ht Hall']; subst.
  destruct toks as [|t' toks]; [by apply split_free|].
  change (join c (t :: t' :: toks)) with (t +:+ String c (join c (t' :: toks))).
  rewrite split_sep by done. by rewrite IH.
Qed.


Lemma has_key_false {V} (d : gmap string V) k : Py.has_key d k = false ↔ d !! k = None.
Proof.
  unfold Py.has_key. rewrite bool_decide_eq_false. symmetry. apply eq_None_not_Some.
Qed.

Lemma getitem_Ok {V} (d : gmap string V) k v : Py.getitem d k = Ok v ↔ d !! k = Some v.
Proof. unfold Py.getitem. destruct (d !! k); naive_solver. Qed.

(** ** Regular expressions *)

Lemma star_groups p k n :
  (∀ s st st', k s st = Some st' → length st'.1 = length st.1 + n) →
  ∀ s st st', star p k s st = Some st' → length st'.1 = length st.1 + n.
Proof.
  intros Hk s. induction s as [|c s IH]; intros st st'; simpl; [apply Hk|].
  destruct (accepts p c); [|apply Hk].
  destruct (star p k s (push c st)) as [r|] eqn:E; [|apply Hk].
  intros [= ->]. by apply IH in E.
Qed.

Lemma match_here_groups r :
  ∀ s st st', match_here r s st = Some st' → length st'.1 = length st.1 + groups r.
Proof.
  induction r as [|a r IH]; intros s st st'; simpl.
  - intros [= ->]. lia.
  - destruct a as [p|p| | |]; simpl.
    + destruct s as [|c s]; [done|]. destruct (accepts p c); [|done].
      intros H. by apply IH in H.
    + destruct s as [|c s]; [done|]. destruct (accepts p c); [|done].
      intros H. by apply (star_groups _ _ _ IH) in H.
    + intros H. by apply IH in H.
    + intros H. apply IH in H. rewrite H. simpl. rewrite length_app. simpl. lia.
    + destruct (at_end s); [|done]. apply IH.
Qed.

(** A match reports as many groups as the pattern has. *)
Lemma search_groups r s gs : search r s = Some gs → length gs = groups r.
Proof.
  induction s as [|c s IH]; simpl.
  - destruct (match_here r "" ([], None)) as [st|] eqn:E; [|done].
    intros [= <-]. by apply match_here_groups in E.
  - destruct (match_here r (String c s) ([], None)) as [st|] eqn:E; [|done].
    intros [= <-]. by apply match_here_groups in E.
Qed.

Lemma group_1 gs r s : search r s = Some gs → groups r = 1 → ∃ g, gs = [g].
Proof.
  intros H Hg. apply search_groups in H. rewrite Hg in H.
  destruct gs as [|g [|]]; simplify_eq/=. eauto.
Qed.

Lemma search_inv r s gs :
  search r s = Some gs → ∃ s' st, match_here r s' ([], None) = Some st ∧ st.1 = gs.
Proof.
  induction s as [|c s IH]; simpl.
  - destruct (match_here r "" ([], None)) as [st|] eqn:E; [|done]. intros [= <-]. eauto.
  - destruct (match_here r (String c s) ([], None)) as [st|] eqn:E; [|done].
    intros [= <-]. eauto.
Qed.

(** Where [p*] succeeds, the rest of the pattern succeeded in a state that
    pushes lead to. *)
Lemma star_inv (P : caps → Prop) p k s : ∀ st st',
  star p k s st = Some st' →
  P st → (∀ c st, P st → P (push c st)) →
  ∃ s' st1, P st1 ∧ k s' st1 = Some st'.
Proof.
  induction s as [|c s IH]; intros st st' H HP Hpush; simpl in H; [eauto|].
  destruct (accepts p c); [|eauto].
  destruct (star p k s (push c st)) as [r|] eqn:E; [|eauto].
  injection H as ->. eapply IH; eauto.
Qed.

Lemma match_here_app_inv r1 r2 : ∀ s st st',
  match_here (r1 ++ r2) s st = Some st' →
  ∃ s' st1, match_here r2 s' st1 = Some st'.
Proof.
  induction r1 as [|a r1 IH]; intros s st st' H; [eauto|].
  simpl in H. destruct a as [p|p| | |].
  - destruct s as [|c s]; [done|]. destruct (accepts p c); [|done]. eauto.
  - destruct s as [|c s]; [done|]. destruct (accepts p c); [|done].
    apply (star_inv (λ _, True)) in H as (s' & st1 & _ & H); eauto.
  - eauto.
  - eauto.
  - destruct (at_end s); [|done]. eauto.
Qed.

(** A group [(p+)] captures at least one character. *)
Lemma plus_group_nonempty p s st st' :
  match_here [GroupOpen; Plus p; GroupClose] s st = Some st' →
  ∃ g, st'.1 = st.1 ++ [g] ∧ g ≠ "".
Proof.
  simpl. destruct s as [|c s]; [done|]. destruct (accepts p c); [|done]. intros H.
  apply (star_inv (λ st1, st1.1 = st.1 ∧ ∃ g, st1.2 = Some g ∧ g ≠ "")) in H
    as (s' & st1 & (H1 & g & H2 & Hg) & H).
  - injection H as <-. exists g. unfold close_group. simpl. by rewrite H1, H2.
  - simpl. split; [done|]. eexists. split; [done|]. apply append_nonempty.
  - intros c' st1 (H1 & g & H2 & Hg). unfold push. simpl. rewrite H2. simpl.
    split; [done|]. eexists. split; [done|]. apply append_nonempty.
Qed.

Lemma search_last_group r s gs p :
  search (r ++ [GroupOpen; Plus p; GroupClose]) s = Some gs →
  ∃ gs' g, gs = gs' ++ [g] ∧ g ≠ "" ∧ length gs' = groups r.
Proof.
  intros H. pose proof (search_groups _ _ _ H) as Hlen.
  apply search_inv in H as (s' & st & H & <-).
  apply match_here_app_inv in H as (s'' & st1 & H).
  apply plus_group_nonempty in H as (g & Hg & Hne).
  exists st1.1, g. split; [done|]. split; [done|].
  rewrite Hg, length_app in Hlen. simpl in Hlen.
  assert (groups (r ++ [GroupOpen; Plus p; GroupClose]) = groups r + 1) as Hr.
  { clear. induction r as [|[]]; simpl; lia. }
  lia.
Qed.

(** A final [(p+)] on text that [p] accepts throughout takes all of it. *)
Lemma star_close_all p s : ∀ gs g,
  all_chars p s = true →
  star p (match_here [GroupClose]) s (gs, Some g) = Some (gs ++ [g +:+ s], None).
Proof.
  induction s as [|c s IH]; intros gs g H; simpl.
  - by rewrite append_empty_r.
  - simpl in H. apply andb_true_iff in H as [Hc Hs]. rewrite Hc.
    unfold push. simpl. rewrite IH by done.
    by rewrite append_assoc, append_cons, append_empty_l.
Qed.

Lemma search_endpoints_inv line gs :
  search re_endpoints line = Some gs → ∃ g, gs = [g] ∧ g ≠ "".
Proof.
  intros H. apply (search_last_group (lit "Endpoints: ")) in H as (gs' & g & -> & Hg & Hlen).
  destruct gs'; [|done]. eauto.
Qed.

Lemma search_scan_listener_port_inv line gs :
  search re_scan_listener_port line = Some gs → ∃ name g, gs = [name; g] ∧ g ≠ "".
Proof.
  intros H.
  apply (search_last_group
           (lit "SCAN Listener " ++ [GroupOpen; Plus Dot; GroupClose] ++ lit " exists"
            ++ [One Dot] ++ lit " Port: ")) in H as (gs' & g & -> & Hg & Hlen).
  destruct gs' as [|name [|]]; try done. eauto.
Qed.

Lemma search_scan_vip_ipv4 a :
  address_text a → search re_scan_vip (scan_ipv4_line a) = Some ["IPv4"; a].
Proof.
  intros [Ha Hall]. destruct a as [|c a]; [done|]. unfold scan_ipv4_line.
  simpl in Hall. apply andb_true_iff in Hall as [Hc Hs].
  rewrite !append_cons, append_empty_l.
  simpl. simpl in Hc. rewrite Hc.
  unfold push. simpl. rewrite star_close_all by done.
  by rewrite ?append_empty_l, ?append_cons, ?append_empty_l.
Qed.

(** ** Flushing a record *)

Lemma flush_spec out item :
  keyed item →
  flush out item = Ok (match item !! "network" with
                       | Some (Str k) => <[k := item]> out
                       | _ => out
                       end).
Proof.
  intros Hk. unfold flush, Py.has_key, Py.getitem.
  destruct (item !! "network") as [v|] eqn:E.
  - rewrite bool_decide_eq_true_2 by eauto.
    destruct (Hk v E) as [k ->]. done.
  - rewrite bool_decide_eq_false_2; [done|]. by intros [? ?].
Qed.

Lemma keyed_empty : keyed ∅.
Proof. intros v. by rewrite lookup_empty. Qed.

Lemma keyed_network g : keyed {["network" := Str g]}.
Proof. intros v. rewrite lookup_singleton_eq. intros [= <-]. eauto. Qed.

Lemma keyed_insert k v (item : entity) :
  k ≠ "network" → keyed item → keyed (<[k := v]> item).
Proof. intros Hne Hk v'. rewrite lookup_insert_ne by done. apply Hk. Qed.

(** ** The network parser *)

Lemma get_networks_line_ok line out item :
  keyed item →
  ∃ out' item', get_networks_line line (out, item) = Ok (out', item') ∧ keyed item'.
Proof.
  intros Hk. unfold get_networks_line.
  destruct (search re_network line) as [gs|] eqn:E.
  - rewrite flush_spec by done. simpl.
    destruct (group_1 _ _ _ E eq_refl) as [g ->]. simpl.
    eexists _, _. split; [done|]. apply keyed_network.
  - repeat case_match; eexists _, _; (split; [done|]); auto using keyed_insert.
    all: by apply keyed_insert.
Qed.

Lemma get_networks_loop_ok output : ∀ out item,
  keyed item →
  ∃ out' item',
    for_each get_networks_line output (out, item) = Ok (out', item') ∧ keyed item'.
Proof.
  induction output as [|line output IH]; intros out item Hk.
  - simpl. eauto.
  - rewrite for_each_cons.
    destruct (get_networks_line_ok line out item Hk) as (out' & item' & -> & Hk'). simpl.
    by apply IH.
Qed.

Lemma get_networks_line_ignored line st :
  ignored_by_get_networks line → get_networks_line line st = Ok st.
Proof.
  intros (H1 & H2 & H3). destruct st as [out item]. unfold get_networks_line.
  by rewrite H1, H2, H3.
Qed.

Lemma get_networks_line_other line out item :
  search re_network line = None →
  ∃ item', get_networks_line line (out, item) = Ok (out, item') ∧
           item' !! "network" = item !! "network".
Proof.
  intros H. unfold get_networks_line. rewrite H.
  repeat case_match; eexists; (split; [done|]); by rewrite ?lookup_insert_ne.
Qed.

(** Without a [Network <id> exists] line no record gets an id, and nothing
    is flushed. *)
Lemma get_networks_loop_unkeyed output : ∀ out item,
  Forall (λ line, search re_network line = None) output →
  item !! "network" = None →
  ∃ item', for_each get_networks_line output (out, item) = Ok (out, item') ∧
           item' !! "network" = None.
Proof.
  induction output as [|line output IH]; intros out item Hall Hn; [simpl; eauto|].
  inversion Hall as [|? ? H1 Hall']; subst. rewrite for_each_cons.
  destruct (get_networks_line_other line out item H1) as (item' & -> & Hi). simpl.
  apply IH; [done|]. by rewrite Hi.
Qed.

(** C9: the network parser returns a mapping for every line sequence and
    raises for none; a line that matches neither [Network <id> exists] nor
    a [Subnet] label can be inserted or removed anywhere without changing
    the result; and when no line matches any pattern the mapping is empty. *)
Theorem get_networks_total :
  (∀ output, ∃ out, get_networks_lines output = Ok out) ∧
  (∀ pre line post,
     ignored_by_get_networks line →
     get_networks_lines (pre ++ line :: post) = get_networks_lines (pre ++ post)) ∧
  (∀ output, Forall ignored_by_get_networks output → get_networks_lines output = Ok ∅).
Proof.
  split; [|split].
  - intros output. unfold get_networks_lines.
    destruct (get_networks_loop_ok output ∅ ∅ keyed_empty) as (out & item & -> & Hk). simpl.
    rewrite flush_spec by done. eauto.
  - intros pre line post Hi. unfold get_networks_lines.
    rewrite !for_each_app.
    destruct (for_each get_networks_line pre (∅, ∅)) as [st|e]; simpl; [|done].
    by rewrite get_networks_line_ignored.
  - intros output Hall. unfold get_networks_lines.
    destruct (get_networks_loop_unkeyed output ∅ ∅) as (item & -> & Hn).
    + eapply List.Forall_impl; [|exact Hall]. by intros line (? & _).
    + done.
    + simpl. unfold flush. by rewrite (proj2 (has_key_false _ _) Hn).
Qed.

Lemma get_networks_total_witness :
  get_networks_lines ["Network 1 exists"; "Network interface eth0"; "Subnet IPv4: 10.0.0.0/24"]
  = get_networks_lines ["Network 1 exists"; "Subnet IPv4: 10.0.0.0/24"].
Proof.
  apply (proj1 (proj2 get_networks_total) ["Network 1 exists"] "Network interface eth0"
           ["Subnet IPv4: 10.0.0.0/24"]).
  vm_compute. repeat split; reflexivity.
Defined.

(** ** The VIP parser *)

Lemma get_vips_line_cases w line out vip :
  keyed vip →
  (∃ out' vip', get_vips_line w line (out, vip) = Ok (out', vip') ∧ keyed vip') ∨
  get_vips_line w line (out, vip) = Raise (AttributeError "NoneType" "group").
Proof.
  intros Hk. unfold get_vips_line.
  destruct (Py.startswith "VIP exists:" line).
  - rewrite flush_spec by done. simpl.
    destruct (search re_network_number line) as [gs|] eqn:E; [|by right].
    destruct (group_1 _ _ _ E eq_refl) as [g ->]. left. simpl.
    eexists _, _. split; [done|]. apply keyed_network.
  - left. repeat case_match; eexists _, _; (split; [done|]); auto using keyed_insert.
    all: by repeat apply keyed_insert.
Qed.

Lemma get_vips_line_malformed w line out vip :
  keyed vip →
  Py.startswith "VIP exists:" line = true →
  search re_network_number line = None →
  get_vips_line w line (out, vip) = Raise (AttributeError "NoneType" "group").
Proof.
  intros Hk H1 H2. unfold get_vips_line. rewrite H1, flush_spec by done. simpl.
  by rewrite H2.
Qed.

Lemma get_vips_loop_malformed w line output : ∀ out vip,
  keyed vip →
  line ∈ output →
  Py.startswith "VIP exists:" line = true →
  search re_network_number line = None →
  for_each (get_vips_line w) output (out, vip) = Raise (AttributeError "NoneType" "group").
Proof.
  induction output as [|l output IH]; intros out vip Hk Hin H1 H2.
  - by apply elem_of_nil in Hin.
  - rewrite for_each_cons.
    destruct (get_vips_line_cases w l out vip Hk) as [(out' & vip' & E & Hk')|E].
    + apply elem_of_cons in Hin as [<-|Hin].
      * by rewrite get_vips_line_malformed in E.
      * rewrite E. simpl. by apply IH.
    + by rewrite E.
Qed.

(** C4, as the claim states it, fails: on a [VIP exists:] line without a
    network number the parser raises the interpreter's error for [.group]
    on [None], whose message does not contain the line. *)
Lemma get_vips_error_omits_line :
  get_vips_lines Sample.cluster [Sample.malformed_vip_line]
  = Raise (AttributeError "NoneType" "group") ∧
  Py.contains Sample.malformed_vip_line
    (exn_message (AttributeError "NoneType" "group")) = false.
Proof. vm_compute. split; reflexivity. Qed.

(** C4 (amended): whenever the output holds a line that starts with
    [VIP exists:] and in which [network number <n>,] does not match, the VIP
    parser raises and returns no mapping: the record is not dropped and the
    parse does not complete.  The error is the [AttributeError] of calling
    [group] on a failed match; it does not carry the line. *)
Theorem get_vips_malformed_raises w output line :
  line ∈ output →
  Py.startswith "VIP exists:" line = true →
  search re_network_number line = None →
  get_vips_lines w output = Raise (AttributeError "NoneType" "group").
Proof.
  intros Hin H1 H2. unfold get_vips_lines.
  by rewrite (get_vips_loop_malformed w line output ∅ ∅ keyed_empty Hin H1 H2).
Qed.

Lemma get_vips_malformed_raises_witness :
  get_vips_lines Sample.cluster ["VIP Name: n1-vip"; Sample.malformed_vip_line]
  = Raise (AttributeError "NoneType" "group").
Proof.
  apply (get_vips_malformed_raises Sample.cluster _ Sample.malformed_vip_line).
  - apply list_elem_of_further, list_elem_of_here.
  - vm_compute. reflexivity.
  - vm_compute. reflexivity.
Defined.

(** ** The SCAN parser *)

Lemma get_scans_line_vip w line family address out item l :
  Py.startswith "SCAN name:" line = false →
  search re_scan_vip line = Some [family; address] →
  item !! Py.lower family = Some (Strs l) →
  get_scans_line w line (out, item)
  = Ok (out, <[Py.lower family := Strs (l ++ [address])]> item).
Proof.
  intros H1 H2 H3. unfold get_scans_line. rewrite H1, H2. simpl.
  unfold append_to, Py.getitem. by rewrite H3.
Qed.

Lemma get_scans_line_header w line name network out item :
  keyed item →
  Py.startswith "SCAN name:" line = true →
  search re_scan_name line = Some [name; network] →
  get_scans_line w line (out, item)
  = Ok (match item !! "network" with Some (Str k) => <[k := item]> out | _ => out end,
        new_scan w name network).
Proof.
  intros Hk H1 H2. unfold get_scans_line. rewrite H1, H2, flush_spec by done. done.
Qed.

Lemma scan_ipv4_line_not_header a : Py.startswith "SCAN name:" (scan_ipv4_line a) = false.
Proof. done. Qed.

Lemma get_scans_loop_ipv4 w addrs : ∀ out item l,
  Forall address_text addrs →
  item !! "ipv4" = Some (Strs l) →
  for_each (get_scans_line w) (scan_ipv4_line <$> addrs) (out, item)
  = Ok (out, <["ipv4" := Strs (l ++ addrs)]> item).
Proof.
  induction addrs as [|a addrs IH]; intros out item l Hall Hl.
  - simpl. rewrite app_nil_r. by rewrite insert_id.
  - inversion Hall as [|? ? Ha Hall']; subst.
    rewrite fmap_cons, for_each_cons.
    rewrite (get_scans_line_vip w _ "IPv4" a out item l);
      [|apply scan_ipv4_line_not_header|by apply search_scan_vip_ipv4|done].
    simpl. change (Py.lower "IPv4") with "ipv4".
    rewrite (IH _ _ (l ++ [a])); [|done|by rewrite lookup_insert_eq].
    by rewrite insert_insert_eq, <- app_assoc.
Qed.

(** C8: a line matching [SCAN <n> (IPv4|IPv6) VIP: <address>] appends the
    address to the list of its family on the current record; a block of a
    [SCAN name:] line followed by [SCAN 1 IPv4 VIP:] lines yields one record
    whose ipv4 list holds exactly the addresses of those lines, in the order
    of the input (two lines give the two addresses). *)
Theorem get_scans_accumulates w :
  (∀ line family address out item l,
     Py.startswith "SCAN name:" line = false →
     search re_scan_vip line = Some [family; address] →
     item !! Py.lower family = Some (Strs l) →
     get_scans_line w line (out, item)
     = Ok (out, <[Py.lower family := Strs (l ++ [address])]> item)) ∧
  (∀ header name network addrs,
     Py.startswith "SCAN name:" header = true →
     search re_scan_name header = Some [name; network] →
     Forall address_text addrs →
     get_scans_lines w (header :: (scan_ipv4_line <$> addrs))
     = Ok {[network := <["ipv4" := Strs addrs]> (new_scan w name network)]}).
Proof.
  split; [apply get_scans_line_vip|].
  intros header name network addrs H1 H2 Hall. unfold get_scans_lines.
  rewrite for_each_cons, (get_scans_line_header w _ name network) by auto using keyed_empty.
  rewrite lookup_empty. simpl.
  rewrite (get_scans_loop_ipv4 w addrs _ _ []); [|done|done]. simpl.
  rewrite flush_spec.
  - unfold new_scan. by rewrite !lookup_insert_ne, lookup_singleton_eq by done.
  - apply keyed_insert; [done|]. unfold new_scan. repeat (apply keyed_insert; [done|]).
    apply keyed_network.
Qed.

Lemma get_scans_accumulates_witness :
  get_scans_lines Sample.cluster
    [Sample.scan_header; "SCAN 1 IPv4 VIP: 10.0.0.21"; "SCAN 1 IPv4 VIP: 10.0.0.22"]
  = Ok {["1" := <["ipv4" := Strs ["10.0.0.21"; "10.0.0.22"]]>
                  (new_scan Sample.cluster "scan.example.com" "1")]}.
Proof.
  apply (proj2 (get_scans_accumulates Sample.cluster)
           Sample.scan_header "scan.example.com" "1" ["10.0.0.21"; "10.0.0.22"]).
  - vm_compute. reflexivity.
  - vm_compute. reflexivity.
  - repeat constructor; vm_compute; congruence.
Defined.

(** ** The listener parser *)

Lemma set_protocol_endpoint p d :
  endpoint_text p → set_protocol (endpoint p) d = Ok (<[Py.lower p.1 := Str p.2]> d).
Proof.
  intros (_ & H1 & _ & H2). unfold set_protocol, endpoint.
  by rewrite split_sep, split_free.
Qed.

Lemma set_protocols_spec pairs d :
  pairs ≠ [] → Forall endpoint_text pairs →
  set_protocols (join "/" (endpoint <$> pairs)) d
  = Ok (foldl (λ d p, <[Py.lower p.1 := Str p.2]> d) d pairs).
Proof.
  intros Hne Hall. unfold set_protocols. rewrite split_join.
  - clear Hne. revert d. induction Hall as [|p pairs Hp _ IH]; intros d; [done|].
    rewrite fmap_cons, for_each_cons, set_protocol_endpoint by done. apply IH.
  - by destruct pairs.
  - clear Hne. induction Hall as [|p pairs (H1 & _ & H2 & _) _ IH]; [constructor|].
    rewrite fmap_cons. constructor; [|done].
    unfold endpoint. rewrite free_of_app. simpl. by rewrite H1, H2.
Qed.

(** C7: the line [End points: TCP:1521/TCPS:1522] leaves, next to the
    [endpoints] text itself, exactly the entries tcp = "1521" and
    tcps = "1522"; in general an [End points:] line whose specification is
    [protocol:port] tokens joined by [/] writes each port under its
    lower-cased protocol, in the order of the tokens. *)
Theorem listener_endpoints_protocols :
  for_each listener_config_line ["End points: TCP:1521/TCPS:1522"] ∅
  = Ok (<["tcps" := Str "1522"]> (<["tcp" := Str "1521"]>
          {["endpoints" := Str "TCP:1521/TCPS:1522"]})) ∧
  (∀ pairs config,
     pairs ≠ [] → Forall endpoint_text pairs →
     listener_config_line ("End points: " +:+ join "/" (endpoint <$> pairs)) config
     = Ok (foldl (λ d p, <[Py.lower p.1 := Str p.2]> d)
             (<["endpoints" := Str (join "/" (endpoint <$> pairs))]> config) pairs)).
Proof.
  split; [done|].
  intros pairs config Hne Hall. unfold listener_config_line.
  rewrite !append_cons, append_empty_l. simpl. by apply set_protocols_spec.
Qed.

Lemma listener_endpoints_protocols_witness :
  listener_config_line "End points: TCP:1521/TCPS:1522" ∅
  = Ok (<["tcps" := Str "1522"]> (<["tcp" := Str "1521"]>
          {["endpoints" := Str "TCP:1521/TCPS:1522"]})).
Proof.
  apply (proj2 listener_endpoints_protocols [("TCP", "1521"); ("TCPS", "1522")] ∅).
  - discriminate.
  - repeat constructor.
Defined.

Section Listener.

Context (w : World) (srvctl shorthostname : string) (iscrs : bool).
Context (vips : gmap string entity).






End Listener.



(** ** The SCAN-listener parser *)

Lemma line_endpoints_found line :
  has_endpoints line → ∃ e, line_endpoints line = Ok (Some e) ∧ e ≠ "".
Proof.
  unfold line_endpoints. intros [[gs H]|[gs H]].
  - rewrite H. apply search_endpoints_inv in H as (g & -> & Hg). simpl. eauto.
  - destruct (search re_endpoints line) as [gs'|] eqn:E.
    + apply search_endpoints_inv in E as (g & -> & Hg). simpl. eauto.
    + rewrite H. apply search_scan_listener_port_inv in H as (name & g & -> & Hg).
      simpl. eauto.
Qed.

Lemma line_endpoints_none line :
  ¬ has_endpoints line → line_endpoints line = Ok None.
Proof.
  unfold has_endpoints, line_endpoints. intros H.
  destruct (search re_endpoints line) eqn:E1; [destruct H; eauto|].
  destruct (search re_scan_listener_port line) eqn:E2; [destruct H; eauto|]. done.
Qed.

Lemma line_endpoints_Some line e : line_endpoints line = Ok (Some e) → e ≠ "".
Proof.
  destruct (decide (has_endpoints line)) as [H|H].
  - destruct (line_endpoints_found line H) as (e' & -> & He). by intros [= <-].
  - by rewrite line_endpoints_none.
Qed.

Lemma scan_listener_lines_first scans n line e output out :
  line_endpoints line = Ok (Some e) →
  scan_listener_lines scans n (line :: output) out
  = scan_listener_record scans n e ≫= λ rec, mret (<[n := rec]> out).
Proof.
  intros H. pose proof (line_endpoints_Some _ _ H) as He. simpl. rewrite H. simpl.
  by destruct e.
Qed.



Section ScanListener.

Context (w : World) (srvctl : string).
Context (networks scans : gmap string entity).

Lemma scan_listener_record_absent n endpoints :
  scans !! n = None → scan_listener_record scans n endpoints = Raise (KeyError n).
Proof. intros H. unfold scan_listener_record, Py.getitem. by rewrite H. Qed.

Lemma scan_listener_record_Ok n endpoints rec :
  scan_listener_record scans n endpoints = Ok rec → is_Some (scans !! n).
Proof.
  unfold scan_listener_record. intros H. apply bind_Ok in H as (scan & H & _).
  apply getitem_Ok in H. eauto.
Qed.

Lemma scan_listener_lines_none n output out :
  Forall (λ line, ¬ has_endpoints line) output →
  scan_listener_lines scans n output out = Ok out.
Proof.
  induction 1 as [|line output H _ IH]; [done|].
  simpl. by rewrite line_endpoints_none.
Qed.

Lemma scan_listener_lines_found n output out :
  Exists has_endpoints output → scans !! n = None →
  scan_listener_lines scans n output out = Raise (KeyError n).
Proof.
  intros Hex Hn. induction output as [|line output IH]; [by inversion Hex|].
  simpl. destruct (decide (has_endpoints line)) as [Hl|Hl].
  - destruct (line_endpoints_found line Hl) as (e & -> & He). simpl.
    destruct e as [|c e]; [done|]. simpl.
    by rewrite scan_listener_record_absent.
  - rewrite line_endpoints_none by done. simpl. apply IH.
    by inversion Hex.
Qed.

Lemma scan_listener_lines_Ok n output out out' :
  scan_listener_lines scans n output out = Ok out' →
  out' = out ∨ ∃ rec, out' = <[n := rec]> out ∧ is_Some (scans !! n).
Proof.
  induction output as [|line output IH]; simpl.
  - intros [= <-]. by left.
  - intros H. apply bind_Ok in H as (e & _ & H).
    destruct (truthy e); [|by apply IH].
    apply bind_Ok in H as (rec & H1 & H). injection H as <-.
    right. exists rec. split; [done|]. by eapply scan_listener_record_Ok.
Qed.

(** Every network with a record has a SCAN. *)
Lemma scan_listener_resolved ks : ∀ out0 out,
  for_each (scan_listener_network w srvctl scans) ks out0 = Ok out →
  (∀ k, is_Some (out0 !! k) → is_Some (scans !! k)) →
  ∀ k, is_Some (out !! k) → is_Some (scans !! k).
Proof.
  induction ks as [|n ks IH]; intros out0 out H Hinv.
  - by injection H as <-.
  - rewrite for_each_cons in H. apply bind_Ok in H as (out1 & H1 & H).
    apply (IH _ _ H). intros k. unfold scan_listener_network in H1.
    apply bind_Ok in H1 as (output & _ & H1).
    apply scan_listener_lines_Ok in H1 as [->|(rec & -> & Hn)]; [apply Hinv|].
    destruct (decide (n = k)) as [<-|Hne]; [done|].
    rewrite lookup_insert_ne by done. apply Hinv.
Qed.

(** C3 (amended): for a network id without an entry in the SCAN mapping,
    the turn of the loop for that network adds no record and raises
    nothing when no line of its [scan_listener] output is in either
    format; when a line is, the turn raises [KeyError] for the network id
    and SCAN-listener resolution as a whole raises; and a resolution that
    completes holds no record for that network. *)
Theorem scan_listener_unresolved n output :
  n ∈ Py.keys networks → scans !! n = None →
  exec_program_lines w [srvctl; "config"; "scan_listener"; "-k"; n] = Ok output →
  (Forall (λ line, ¬ has_endpoints line) output →
     ∀ out, scan_listener_network w srvctl scans n out = Ok out) ∧
  (Exists has_endpoints output →
     (∀ out, scan_listener_network w srvctl scans n out = Raise (KeyError n)) ∧
     ∃ e, scan_listener w srvctl networks scans = Raise e) ∧
  (∀ out, scan_listener w srvctl networks scans = Ok out → out !! n = None).
Proof.
  intros Hin Hn Hout. split; [|split].
  - intros Hall out. unfold scan_listener_network. rewrite Hout. simpl.
    by apply scan_listener_lines_none.
  - intros Hex.
    assert (∀ out, scan_listener_network w srvctl scans n out = Raise (KeyError n)) as Hr.
    { intros out. unfold scan_listener_network. rewrite Hout. simpl.
      by apply scan_listener_lines_found. }
    split; [done|]. unfold scan_listener.
    apply (for_each_raises _ _ n Hin). eauto.
  - intros out H. unfold scan_listener in H.
    apply eq_None_not_Some. intros Hs.
    eapply scan_listener_resolved in H; [| |exact Hs].
    + rewrite Hn in H. by destruct H.
    + intros k. rewrite lookup_empty. by intros [? ?].
Qed.

End ScanListener.

(** C3, as the claim states it, fails: network 1 has no SCAN, its
    [scan_listener] output has an [Endpoints:] line, and SCAN-listener
    resolution raises [KeyError] instead of skipping the network. *)
Lemma scan_listener_absent_scan_raises :
  get_networks Sample.no_scan Sample.srvctl = Ok Sample.networks ∧
  get_scans Sample.no_scan Sample.srvctl = Ok ∅ ∧
  exec_program_lines Sample.no_scan [Sample.srvctl; "config"; "scan_listener"; "-k"; "1"]
  = Ok Sample.scan_listener_output ∧
  scan_listener Sample.no_scan Sample.srvctl Sample.networks ∅ = Raise (KeyError "1") ∧
  main Sample.no_scan Sample.home = Raise (KeyError "1").
Proof. vm_compute. repeat split; reflexivity. Qed.

Lemma scan_listener_unresolved_witness :
  (∀ out, scan_listener_network Sample.no_scan Sample.srvctl ∅ "1" out
          = Raise (KeyError "1")) ∧
  ∃ e, scan_listener Sample.no_scan Sample.srvctl Sample.networks ∅ = Raise e.
Proof.
  apply (proj1 (proj2 (scan_listener_unresolved Sample.no_scan Sample.srvctl
           Sample.networks ∅ "1" Sample.scan_listener_output
           ltac:(vm_compute; apply list_elem_of_here)
           ltac:(reflexivity) ltac:(vm_compute; reflexivity)))).
  apply Exists_cons_tl, Exists_cons_hd. left. vm_compute. eauto.
Defined.

(** ** The command runner *)



(** ** Mode and version *)

Section Restart.

Context (w : World) (crsctl : string) (v : string → string).

Lemma restart_version_spec i facts :
  exec_program w [crsctl; "query"; "has"; i] = Ok (v i) →
  restart_version w crsctl i facts
  = Ok (match search re_version (v i) with
        | Some [t] => <["version" := FStr t]> (<[i := FStr t]> facts)
        | _ => <[i := FStr (v i)]> facts
        end).
Proof.
  intros H. unfold restart_version. rewrite H. simpl.
  destruct (search re_version (v i)) as [gs|] eqn:E; [|done].
  by destruct (group_1 _ _ _ E eq_refl) as [g ->].
Qed.

(** Sub-queries without a bracketed suffix leave [version] as it is. *)
Lemma restart_versions_unmatched queries : ∀ facts,
  (∀ i, i ∈ queries → exec_program w [crsctl; "query"; "has"; i] = Ok (v i)) →
  (∀ i, i ∈ queries → search re_version (v i) = None) →
  "version" ∉ queries →
  ∃ facts', for_each (restart_version w crsctl) queries facts = Ok facts' ∧
            facts' !! "version" = facts !! "version".
Proof.
  induction queries as [|i queries IH]; intros facts H Hn Hv; [by eexists|].
  rewrite for_each_cons, restart_version_spec by (apply H; left).
  rewrite Hn by left. simpl.
  destruct (IH (<[i := FStr (v i)]> facts)) as (facts' & -> & Hf).
  - intros j Hj. apply H. by right.
  - intros j Hj. apply Hn. by right.
  - intros Hin. apply Hv. by right.
  - exists facts'. split; [done|]. rewrite Hf. apply lookup_insert_ne.
    intros ->. apply Hv. left.
Qed.

Lemma restart_versions_last queries facts facts' pre i post t :
  (∀ i, i ∈ queries → exec_program w [crsctl; "query"; "has"; i] = Ok (v i)) →
  "version" ∉ queries →
  for_each (restart_version w crsctl) queries facts = Ok facts' →
  queries = pre ++ i :: post →
  search re_version (v i) = Some [t] →
  (∀ j, j ∈ post → search re_version (v j) = None) →
  facts' !! "version" = Some (FStr t).
Proof.
  intros H Hv Hrun -> Hi Hpost.
  rewrite for_each_app in Hrun. apply bind_Ok in Hrun as (facts1 & _ & Hrun).
  rewrite for_each_cons, restart_version_spec, Hi in Hrun
    by (apply H, elem_of_app; right; left).
  simpl in Hrun.
  destruct (restart_versions_unmatched post
              (<["version" := FStr t]> (<[i := FStr t]> facts1)))
    as (facts2 & E & Hf).
  - intros j Hj. apply H, elem_of_app. right. by right.
  - done.
  - intros Hin. apply Hv, elem_of_app. right. by right.
  - rewrite E in Hrun. injection Hrun as <-. by rewrite Hf, lookup_insert_eq.
Qed.

End Restart.

Lemma version_not_query : "version" ∉ restart_queries.
Proof.
  unfold restart_queries. intros H.
  repeat (apply elem_of_cons in H as [?|H]; [done|]). by apply elem_of_nil in H.
Qed.

(** What a run of [main] that returned went through. *)
Lemma main_Ok w oracle_home r :
  main w oracle_home = Ok r →
  ∃ nodes facts0 facts1 scan_listeners,
    exec_program_lines w [tool oracle_home "olsnodes"] = Ok nodes ∧
    run_iscrs r = Py.bool_of_list nodes ∧
    (if Py.bool_of_list nodes then facts1 = facts0
     else for_each (restart_version w (tool oracle_home "crsctl")) restart_queries facts0
          = Ok facts1) ∧
    facts0 !! "version" = None ∧
    run_facts r !! "version" = facts1 !! "version" ∧
    run_facts r !! "scan_listener" = Some (FEntities scan_listeners) ∧
    (Py.bool_of_list nodes = false → scan_listeners = []).
Proof.
  unfold main. intros H. bind_inv H. injection H as <-.
  eexists a, _, a2, a7. split; [done|]. split; [done|]. split; [|split; [|split; [|split]]].
  - destruct (Py.bool_of_list a).
    + apply bind_Ok in E2 as (? & _ & E2). injection E2 as <-. reflexivity.
    + exact E2.
  - done.
  - simpl. by rewrite !lookup_insert_ne by done.
  - simpl. by rewrite !lookup_insert_ne, lookup_insert_eq by done.
  - intros Hb. rewrite Hb in E7. by injection E7 as <-.
Qed.

(** C1, as the claim states it, fails: when [olsnodes] exits with a non-zero
    status the runner answers the list of one empty string, which is not
    empty; [iscrs] is true and the SCAN listener of network 1 is reported. *)
Lemma main_failed_olsnodes_is_cluster :
  exec_program_lines Sample.failed_olsnodes [tool Sample.home "olsnodes"] = Ok [""] ∧
  iscrs_of (main Sample.failed_olsnodes Sample.home) = Some true ∧
  fact_of (main Sample.failed_olsnodes Sample.home) "scan_listener"
  = Some (FEntities [Sample.scan_listener_record]).
Proof. vm_compute. repeat split; reflexivity. Qed.

(** C1 (amended): when the node-list command yields the empty line sequence
    (status 0 and no output), a run that returns has [iscrs] false and an
    empty SCAN-listener list, whatever SCAN records were parsed. *)
Theorem main_restart_mode w oracle_home r :
  exec_program_lines w [tool oracle_home "olsnodes"] = Ok [] →
  main w oracle_home = Ok r →
  run_iscrs r = false ∧ run_facts r !! "scan_listener" = Some (FEntities []).
Proof.
  intros Hn H. apply main_Ok in H as (nodes & f0 & f1 & sl & H1 & H2 & _ & _ & _ & H3 & H4).
  rewrite Hn in H1. injection H1 as <-. split; [done|]. by rewrite H3, H4.
Qed.

Lemma main_restart_mode_witness :
  run_iscrs Sample.restart_run = false ∧
  run_facts Sample.restart_run !! "scan_listener" = Some (FEntities []).
Proof.
  apply (main_restart_mode Sample.restart Sample.home Sample.restart_run);
    vm_compute; reflexivity.
Defined.

(** C5, as the claim states it, fails: [releaseversion] is the first
    sub-query whose extraction succeeds, with the token 19.0.0.0.0, yet
    [version] ends as the token of [softwarepatch]. *)
Lemma restart_version_alias_overwritten :
  search re_version (Sample.restart_answer "releaseversion") = Some ["19.0.0.0.0"] ∧
  search re_version (Sample.restart_answer "softwarepatch") = Some ["724960844"] ∧
  fact_of (main Sample.restart Sample.home) "releaseversion" = Some (FStr "19.0.0.0.0") ∧
  fact_of (main Sample.restart Sample.home) "version" = Some (FStr "724960844").
Proof. vm_compute. repeat split; reflexivity. Qed.

(** C5 (amended): in restart mode, when the four sub-queries answer [v] and
    at least one answer matches the trailing bracket pattern, [version] in
    the assembled facts is the token of the last sub-query, in the fixed
    order, whose extraction succeeded: every later success overwrites it. *)
Theorem restart_version_alias w oracle_home r (v : string → string) :
  exec_program_lines w [tool oracle_home "olsnodes"] = Ok [] →
  (∀ i, i ∈ restart_queries →
        exec_program w [tool oracle_home "crsctl"; "query"; "has"; i] = Ok (v i)) →
  main w oracle_home = Ok r →
  ∀ pre i post t,
    restart_queries = pre ++ i :: post →
    search re_version (v i) = Some [t] →
    (∀ j, j ∈ post → search re_version (v j) = None) →
    run_facts r !! "version" = Some (FStr t).
Proof.
  intros Hn Hv H pre i post t Hq Hi Hpost.
  apply main_Ok in H as (nodes & f0 & f1 & sl & H1 & _ & Hloop & _ & H2 & _).
  rewrite Hn in H1. injection H1 as <-. simpl in Hloop. rewrite H2.
  exact (restart_versions_last w _ v restart_queries f0 f1 pre i post t
           Hv version_not_query Hloop Hq Hi Hpost).
Qed.

Lemma restart_version_alias_witness :
  run_facts Sample.restart_run !! "version" = Some (FStr "724960844").
Proof.
  apply (restart_version_alias Sample.restart Sample.home Sample.restart_run
           Sample.restart_answer
           ltac:(vm_compute; reflexivity)
           ltac:(intros i Hi; unfold restart_queries in Hi;
                 repeat (apply elem_of_cons in Hi as [->|Hi]; [vm_compute; reflexivity|]);
                 by apply elem_of_nil in Hi)
           ltac:(vm_compute; reflexivity)
           ["releaseversion"; "releasepatch"; "softwareversion"] "softwarepatch" []).
  - reflexivity.
  - vm_compute. reflexivity.
  - intros j Hj. by apply elem_of_nil in Hj.
Defined.

(** * Further properties *)

(** ** Loop invariants and captured groups *)

Lemma for_each_inv {A S} (I : S → Prop) (body : A → S → result S) xs :
  (∀ x st st', I st → body x st = Ok st' → I st') →
  ∀ st st', I st → for_each body xs st = Ok st' → I st'.
Proof.
  intros Hbody. induction xs as [|x xs IH]; intros st st' HI H.
  - by injection H as <-.
  - rewrite for_each_cons in H. apply bind_Ok in H as (st1 & H1 & H2). eauto.
Qed.

Lemma all_chars_app p s t : all_chars p (s +:+ t) = all_chars p s && all_chars p t.
Proof.
  induction s as [|c s IH]; [done|]. rewrite append_cons. simpl.
  by rewrite IH, andb_assoc.
Qed.

Lemma star_inv_accepted (P : caps → Prop) p k s : ∀ st st',
  star p k s st = Some st' →
  P st → (∀ c st, accepts p c = true → P st → P (push c st)) →
  ∃ s' st1, P st1 ∧ k s' st1 = Some st'.
Proof.
  induction s as [|c s IH]; intros st st' H HP Hpush; simpl in H; [eauto|].
  destruct (accepts p c) eqn:Hc; [|eauto].
  destruct (star p k s (push c st)) as [r|] eqn:E; [|eauto].
  injection H as ->. eapply IH; eauto.
Qed.

Lemma match_here_extends r : ∀ s st st',
  match_here r s st = Some st' → ∃ more, st'.1 = st.1 ++ more.
Proof.
  induction r as [|a r IH]; intros s st st' H; simpl in H.
  - injection H as <-. exists []. by rewrite app_nil_r.
  - destruct a as [p|p| | |].
    + destruct s as [|c s]; [done|]. destruct (accepts p c); [|done].
      by apply IH in H.
    + destruct s as [|c s]; [done|]. destruct (accepts p c); [|done].
      apply (star_inv (λ st1, st1.1 = st.1)) in H as (s' & st1 & H1 & H); [|done|done].
      apply IH in H as [more H]. exists more. by rewrite H, H1.
    + by apply IH in H.
    + apply IH in H as [more H]. simpl in H. exists (default "" st.2 :: more).
      by rewrite H, <- app_assoc.
    + destruct (at_end s); [|done]. by apply IH in H.
Qed.

(** A group [(p+)] captures a non-empty text of characters of [p]. *)
Lemma plus_group_chars p r s st st' :
  match_here ([GroupOpen; Plus p; GroupClose] ++ r) s st = Some st' →
  ∃ g more, st'.1 = st.1 ++ g :: more ∧ g ≠ "" ∧ all_chars p g = true.
Proof.
  simpl. destruct s as [|c s]; [done|]. destruct (accepts p c) eqn:Hc; [|done]. intros H.
  apply (star_inv_accepted
           (λ st1, st1.1 = st.1 ∧ ∃ g, st1.2 = Some g ∧ g ≠ "" ∧ all_chars p g = true)) in H
    as (s' & st1 & (H1 & g & H2 & Hg & Hall) & H).
  - apply match_here_extends in H as [more H]. exists g, more.
    rewrite H. unfold close_group. simpl. rewrite H1, H2. simpl.
    by rewrite <- app_assoc.
  - simpl. split; [done|]. eexists. split; [done|]. split; [apply append_nonempty|].
    rewrite append_empty_l. simpl. by rewrite Hc.
  - intros c' st1 Hc' (H1 & g & H2 & Hg & Hall). unfold push. simpl. rewrite H2. simpl.
    split; [done|]. eexists. split; [done|]. split; [apply append_nonempty|].
    rewrite all_chars_app, Hall. simpl. by rewrite Hc'.
Qed.

Lemma search_group_chars r1 p r2 s gs :
  search (r1 ++ [GroupOpen; Plus p; GroupClose] ++ r2) s = Some gs →
  ∃ gs1 g gs2, gs = gs1 ++ g :: gs2 ∧ g ≠ "" ∧ all_chars p g = true ∧
               length gs1 = groups r1 ∧ length gs2 = groups r2.
Proof.
  intros H. pose proof (search_groups _ _ _ H) as Hlen.
  apply search_inv in H as (s' & st & H & <-).
  pose proof H as H0.
  (* the prefix *)
  assert (∀ r s st st', match_here (r1 ++ r) s st = Some st' →
            ∃ s1 st1, match_here r s1 st1 = Some st' ∧
                      length st1.1 = length st.1 + groups r1) as Hpre.
  { clear. induction r1 as [|a r1 IH]; intros r s st st' H.
    - exists s, st. split; [done|]. simpl. lia.
    - simpl in H. destruct a as [p|p| | |].
      + destruct s as [|c s]; [done|]. destruct (accepts p c); [|done].
        apply IH in H as (s1 & st1 & H & Hl). eauto.
      + destruct s as [|c s]; [done|]. destruct (accepts p c); [|done].
        apply (star_inv (λ st1, length st1.1 = length st.1)) in H
          as (s' & st1 & H1 & H); [|done|done].
        apply IH in H as (s1 & st2 & H & Hl). exists s1, st2. split; [done|].
        simpl. lia.
      + apply IH in H as (s1 & st1 & H & Hl). eauto.
      + apply IH in H as (s1 & st1 & H & Hl). exists s1, st1. split; [done|].
        simpl in *. rewrite length_app in Hl. simpl in Hl. lia.
      + destruct (at_end s); [|done]. apply IH in H as (s1 & st1 & H & Hl). eauto. }
  apply Hpre in H as (s1 & st1 & H & Hl1).
  apply plus_group_chars in H as (g & more & Hst & Hg & Hall).
  exists st1.1, g, more. split; [done|]. split; [done|]. split; [done|].
  simpl in Hl1. split; [done|].
  rewrite Hst, length_app in Hlen. simpl in Hlen.
  assert (∀ ra rb, groups (ra ++ rb) = groups ra + groups rb) as Happ.
  { clear. induction ra as [|[]]; intros rb; simpl; rewrite ?IHra; lia. }
  rewrite Happ in Hlen. simpl in Hlen. lia.
Qed.

Lemma search_network_id line gs :
  search re_network line = Some gs → ∃ k, gs = [k] ∧ network_id k.
Proof.
  intros H.
  apply (search_group_chars (lit "Network ") digit (lit " exists")) in H
    as (gs1 & g & gs2 & -> & Hg & Hall & H1 & H2).
  destruct gs1; [|done]. destruct gs2; [|done]. exists g. by split.
Qed.

Lemma search_network_number_id line gs :
  search re_network_number line = Some gs → ∃ k, gs = [k] ∧ network_id k.
Proof.
  intros H.
  apply (search_group_chars (lit "network number ") digit (lit ",")) in H
    as (gs1 & g & gs2 & -> & Hg & Hall & H1 & H2).
  destruct gs1; [|done]. destruct gs2; [|done]. exists g. by split.
Qed.

Lemma search_scan_name_id line gs :
  search re_scan_name line = Some gs → ∃ name k, gs = [name; k] ∧ name ≠ "" ∧ network_id k.
Proof.
  intros H. pose proof H as H0.
  apply (search_group_chars
           (lit "SCAN name: " ++ [GroupOpen; Plus Dot; GroupClose] ++ lit ", Network: ")
           digit []) in H as (gs1 & g & gs2 & -> & Hg & Hall & H1 & H2).
  destruct gs1 as [|name [|]]; try done. destruct gs2; [|done].
  apply (search_group_chars (lit "SCAN name: ") Dot
           (lit ", Network: " ++ [GroupOpen; Plus digit; GroupClose])) in H0
    as (gs1 & g' & gs2 & E & Hg' & _ & H1' & H2').
  destruct gs1; [|done]. simpl in E. injection E as <- _.
  exists name, g. by repeat split.
Qed.

Lemma flush_inv (R : string → entity → Prop) out item out' :
  keyed item →
  (∀ k, item !! "network" = Some (Str k) → R k item) →
  (∀ k it, out !! k = Some it → R k it) →
  flush out item = Ok out' →
  ∀ k it, out' !! k = Some it → R k it.
Proof.
  intros Hk Hitem Hout H. rewrite flush_spec in H by done. injection H as <-.
  destruct (item !! "network") as [[n|]|] eqn:E; try done.
  intros k it. destruct (decide (n = k)) as [<-|Hne].
  - rewrite lookup_insert_eq. intros [= <-]. by apply Hitem.
  - rewrite lookup_insert_ne by done. apply Hout.
Qed.

(** ** Records of the parsers *)

Section Records.
Context (w : World).

(** *** Networks *)

Lemma pending_network_keyed item : pending_network item → keyed item.
Proof. intros [H _] v Hv. destruct (H v Hv) as (k & -> & _). eauto. Qed.

Lemma pending_network_record item k :
  pending_network item → item !! "network" = Some (Str k) → network_record k item.
Proof.
  intros [H1 H2] Hk. split; [done|]. split; [|done].
  destruct (H1 _ Hk) as (k' & [= <-] & Hid). done.
Qed.

Lemma pending_network_insert item f s :
  f = "ipv4" ∨ f = "ipv6" → pending_network item → pending_network (<[f := Str s]> item).
Proof.
  intros Hf [H1 H2]. assert (f ≠ "network") as Hne by (by destruct Hf as [->| ->]). split.
  - intros v. rewrite lookup_insert_ne by done. apply H1.
  - intros f' v. destruct (decide (f = f')) as [<-|Hne'].
    + rewrite lookup_insert_eq. intros [= <-]. split; [tauto|eauto].
    + rewrite lookup_insert_ne by done. apply H2.
Qed.

Lemma get_networks_line_inv line st st' :
  (∀ k it, st.1 !! k = Some it → network_record k it) ∧ pending_network st.2 →
  get_networks_line line st = Ok st' →
  (∀ k it, st'.1 !! k = Some it → network_record k it) ∧ pending_network st'.2.
Proof.
  destruct st as [out item]. intros [Hout Hitem] H. unfold get_networks_line in H.
  destruct (search re_network line) as [gs|] eqn:E.
  - apply bind_Ok in H as (out' & Hf & H).
    apply search_network_id in E as (g & -> & Hg). simpl in H. injection H as <-. split.
    + simpl. eapply flush_inv; [| |exact Hout|exact Hf].
      * by apply pending_network_keyed.
      * intros k. by apply pending_network_record.
    + simpl. split.
      * intros v. rewrite lookup_singleton_eq. intros [= <-]. eauto.
      * intros f v [<- <-]%lookup_singleton_Some. split; [tauto|eauto].
  - repeat case_match; injection H as <-; (split; [done|]); simpl; try done.
    all: apply pending_network_insert; [tauto|done].
Qed.

(** X3: every entry of the mapping [get_networks] returns is filed
  under its own network id, which is a non-empty run of digits, and holds
  only text under the fields network, ipv4 and ipv6. *)

Theorem get_networks_records output out :
  get_networks_lines output = Ok out →
  ∀ k item, out !! k = Some item → network_record k item.
Proof.
  unfold get_networks_lines. intros H. apply bind_Ok in H as (st & Hloop & Hf).
  apply (for_each_inv
           (λ st, (∀ k it, st.1 !! k = Some it → network_record k it) ∧
                  pending_network st.2)) in Hloop as [Hout Hitem].
  - eapply flush_inv; [| |exact Hout|exact Hf].
    + by apply pending_network_keyed.
    + intros k. by apply pending_network_record.
  - intros line s s'. apply get_networks_line_inv.
  - simpl. split; [by intros k it; rewrite lookup_empty|].
    split; intros ?; [|intros ?]; by rewrite lookup_empty.
Qed.

(** *** VIPs *)

Lemma pending_vip_keyed vip : pending_vip w vip → keyed vip.
Proof. intros [H _] v Hv. destruct (H v Hv) as (k & -> & _). eauto. Qed.

Lemma pending_vip_record vip k :
  pending_vip w vip → vip !! "network" = Some (Str k) → vip_record w k vip.
Proof.
  intros [H1 H2] Hk. split; [done|]. split; [|done].
  destruct (H1 _ Hk) as (k' & [= <-] & Hid). done.
Qed.

Lemma pending_vip_insert vip f v :
  f = "ipv4" ∨ f = "ipv6" → pending_vip w vip → pending_vip w (<[f := v]> vip).
Proof.
  intros Hf [H1 H2].
  assert (f ≠ "network" ∧ f ≠ "name" ∧ f ≠ "fqdn") as (? & ? & ?)
    by (by destruct Hf as [->| ->]).
  split.
  - intros v'. rewrite lookup_insert_ne by done. apply H1.
  - unfold named. by rewrite !lookup_insert_ne by done.
Qed.

Lemma get_vips_line_inv line st st' :
  (∀ k it, st.1 !! k = Some it → vip_record w k it) ∧ pending_vip w st.2 →
  get_vips_line w line st = Ok st' →
  (∀ k it, st'.1 !! k = Some it → vip_record w k it) ∧ pending_vip w st'.2.
Proof.
  destruct st as [out vip]. intros [Hout Hvip] H. unfold get_vips_line in H.
  destruct (Py.startswith "VIP exists:" line).
  - apply bind_Ok in H as (out' & Hf & H).
    destruct (search re_network_number line) as [gs|] eqn:E; [|done].
    apply search_network_number_id in E as (g & -> & Hg). simpl in H. injection H as <-.
    split.
    + simpl. eapply flush_inv; [| |exact Hout|exact Hf].
      * by apply pending_vip_keyed.
      * intros k. by apply pending_vip_record.
    + simpl. split.
      * intros v. rewrite lookup_singleton_eq. intros [= <-]. eauto.
      * unfold named. by rewrite !lookup_singleton_ne by done.
  - repeat case_match; injection H as <-; (split; [done|]); simpl; try done.
    2,3: apply pending_vip_insert; [tauto|done].
    destruct Hvip as [H1 H2]. split.
    + intros v. rewrite !lookup_insert_ne by done. apply H1.
    + unfold named. rewrite lookup_insert_ne, lookup_insert_eq by done.
      rewrite lookup_insert_eq. eauto.
Qed.

(** X5: every entry of the mapping [get_vips] returns is filed under
  its own network id, a non-empty run of digits, and has an fqdn exactly
  when it has a name, the fqdn being [hostname_to_fqdn] of that name. *)

Theorem get_vips_records output out :
  get_vips_lines w output = Ok out →
  ∀ k vip, out !! k = Some vip → vip_record w k vip.
Proof.
  unfold get_vips_lines. intros H. apply bind_Ok in H as (st & Hloop & Hf).
  apply (for_each_inv
           (λ st, (∀ k it, st.1 !! k = Some it → vip_record w k it) ∧
                  pending_vip w st.2)) in Hloop as [Hout Hitem].
  - eapply flush_inv; [| |exact Hout|exact Hf].
    + by apply pending_vip_keyed.
    + intros k. by apply pending_vip_record.
  - intros line s s'. apply get_vips_line_inv.
  - simpl. split; [by intros k it; rewrite lookup_empty|].
    split; [intros ?; by rewrite lookup_empty|]. unfold named. by rewrite !lookup_empty.
Qed.



(** X6: [get_vips] returns a mapping exactly when every line that
  starts with [VIP exists:] carries [network number <n>,]; no other line can
  make it raise. *)


End Records.

Lemma get_networks_records_witness : network_record "1" Cases.network1.
Proof.
  apply (get_networks_records Cases.network_output Sample.networks); vm_compute; reflexivity.
Defined.

Lemma get_vips_records_witness : vip_record Sample.cluster "1" Cases.vip1.
Proof.
  apply (get_vips_records Sample.cluster Cases.vip_output Sample.vips);
    vm_compute; reflexivity.
Defined.


Lemma match_here_app_length r1 : ∀ r s st st',
  match_here (r1 ++ r) s st = Some st' →
  ∃ s1 st1, match_here r s1 st1 = Some st' ∧ length st1.1 = length st.1 + groups r1.
Proof.
  induction r1 as [|a r1 IH]; intros r s st st' H.
  - exists s, st. split; [done|]. simpl. lia.
  - simpl in H. destruct a as [p|p| | |].
    + destruct s as [|c s]; [done|]. destruct (accepts p c); [|done].
      apply IH in H as (s1 & st1 & H & Hl). eauto.
    + destruct s as [|c s]; [done|]. destruct (accepts p c); [|done].
      apply (star_inv (λ st1, length st1.1 = length st.1)) in H
        as (s' & st1 & H1 & H); [|done|done].
      apply IH in H as (s1 & st2 & H & Hl). exists s1, st2. split; [done|].
      simpl. lia.
    + apply IH in H as (s1 & st1 & H & Hl). eauto.
    + apply IH in H as (s1 & st1 & H & Hl). exists s1, st1. split; [done|].
      simpl in *. rewrite length_app in Hl. simpl in Hl. lia.
    + destruct (at_end s); [|done]. apply IH in H as (s1 & st1 & H & Hl). eauto.
Qed.

Lemma accepts_lit c c' : accepts (Lit c') c = true → c = c'.
Proof. simpl. apply Ascii.eqb_eq. Qed.

Lemma accepts_4_or_6 c :
  accepts (Ranges [("4", "4"); ("6", "6")]%char) c = true → c = "4"%char ∨ c = "6"%char.
Proof.
  destruct c as [[] [] [] [] [] [] [] []]; vm_compute; intros H; try done; auto.
Qed.

(** The family group of ['SCAN [0-9]+ (IPv[46]) VIP: (.+)'] is [IPv4] or
    [IPv6]. *)
Lemma search_scan_vip_family line gs :
  search re_scan_vip line = Some gs →
  ∃ family address, gs = [family; address] ∧ (family = "IPv4" ∨ family = "IPv6").
Proof.
  intros H. pose proof (search_groups _ _ _ H) as Hlen.
  apply search_inv in H as (s' & st & H & <-).
  apply (match_here_app_length (lit "SCAN " ++ [Plus digit] ++ lit " ")
           (GroupOpen :: One (Lit "I") :: One (Lit "P") :: One (Lit "v")
            :: One (Ranges [("4", "4"); ("6", "6")]%char) :: GroupClose
            :: (lit " VIP: " ++ [GroupOpen; Plus Dot; GroupClose]))) in H
    as (s1 & st1 & H & Hl).
  simpl in Hl. destruct st1 as [gs1 o1]. destruct gs1; [|done]. clear Hl.
  remember (lit " VIP: " ++ [GroupOpen; Plus Dot; GroupClose]) as rest eqn:Hrest.
  simpl in H.
  do 4 (destruct s1 as [|?c s1]; [done|];
        match type of H with
        | (if ?b then _ else _) = _ => destruct b eqn:?Hc; [|done]
        end).
  apply accepts_lit in Hc, Hc0, Hc1. apply accepts_4_or_6 in Hc2. subst c c0 c1.
  apply match_here_extends in H as [more H]. simpl in H.
  rewrite H in Hlen. simpl in Hlen. destruct more as [|a [|]]; try done.
  rewrite H. destruct Hc2 as [-> | ->]; eauto.
Qed.

(** *** SCANs *)

Section Scans.
Context (w : World).

Lemma pending_scan_keyed item : pending_scan w item → keyed item.
Proof.
  intros [-> | (k & Hk & _)]; [apply keyed_empty|].
  intros v Hv. rewrite Hk in Hv. injection Hv as <-. eauto.
Qed.

Lemma pending_scan_record item k :
  pending_scan w item → item !! "network" = Some (Str k) → scan_record w k item.
Proof.
  intros [-> | (k' & Hr)] Hk; [by rewrite lookup_empty in Hk|].
  destruct Hr as (Hk' & ?). rewrite Hk in Hk'. by injection Hk' as <-.
Qed.

Lemma new_scan_record name k :
  name ≠ "" → network_id k → scan_record w k (new_scan w name k).
Proof.
  intros Hn Hk. unfold new_scan. split; [|split; [done|]].
  - by rewrite !lookup_insert_ne, lookup_singleton_eq by done.
  - exists name, [], []. split; [done|]. repeat split; by simplify_map_eq.
Qed.

Lemma append_to_Ok item k x item' :
  append_to item k x = Ok item' →
  ∃ l, item !! k = Some (Strs l) ∧ item' = <[k := Strs (l ++ [x])]> item.
Proof.
  unfold append_to. intros H. apply bind_Ok in H as (v & Hv & H).
  apply getitem_Ok in Hv. destruct v as [|l]; [done|]. injection H as <-. eauto.
Qed.

Lemma scan_record_append k item f l x :
  scan_record w k item → item !! f = Some (Strs l) →
  scan_record w k (<[f := Strs (l ++ [x])]> item).
Proof.
  intros (Hk & Hid & name & l4 & l6 & Hn & H1 & H2 & H3 & H4) Hf.
  assert (f ≠ "network" ∧ f ≠ "name" ∧ f ≠ "fqdn") as (? & ? & ?).
  { repeat split; intros ->; congruence. }
  split; [by rewrite lookup_insert_ne|]. split; [done|].
  exists name,
    (if decide (f = "ipv4") then l ++ [x] else l4),
    (if decide (f = "ipv6") then l ++ [x] else l6).
  split; [done|]. rewrite !(lookup_insert_ne _ f) by done. split; [done|]. split; [done|].
  split; case_decide; subst; by rewrite ?lookup_insert_eq, ?lookup_insert_ne.
Qed.

Lemma get_scans_line_inv line st st' :
  (∀ k it, st.1 !! k = Some it → scan_record w k it) ∧ pending_scan w st.2 →
  get_scans_line w line st = Ok st' →
  (∀ k it, st'.1 !! k = Some it → scan_record w k it) ∧ pending_scan w st'.2.
Proof.
  destruct st as [out item]. intros [Hout Hitem] H. unfold get_scans_line in H.
  destruct (Py.startswith "SCAN name:" line).
  - apply bind_Ok in H as (out' & Hf & H).
    destruct (search re_scan_name line) as [gs|] eqn:E; [|done].
    apply search_scan_name_id in E as (name & g & -> & Hn & Hg). simpl in H.
    injection H as <-. split.
    + simpl. eapply flush_inv; [| |exact Hout|exact Hf].
      * by apply pending_scan_keyed.
      * intros k. by apply pending_scan_record.
    + right. exists g. by apply new_scan_record.
  - destruct (search re_scan_vip line) as [gs|] eqn:E.
    + apply search_scan_vip_family in E as (family & address & -> & _). simpl in H.
      apply bind_Ok in H as (item' & Ha & H). injection H as <-.
      apply append_to_Ok in Ha as (l & Hl & ->). split; [done|]. simpl in *.
      destruct Hitem as [-> | (k & Hr)]; [by rewrite lookup_empty in Hl|].
      right. exists k. by apply scan_record_append.
    + by injection H as <-.
Qed.

Lemma get_scans_lines_records output out :
  get_scans_lines w output = Ok out →
  ∀ k item, out !! k = Some item → scan_record w k item.
Proof.
  unfold get_scans_lines. intros H. apply bind_Ok in H as (st & Hloop & Hf).
  apply (for_each_inv
           (λ st, (∀ k it, st.1 !! k = Some it → scan_record w k it) ∧
                  pending_scan w st.2)) in Hloop as [Hout Hitem].
  - eapply flush_inv; [| |exact Hout|exact Hf].
    + by apply pending_scan_keyed.
    + intros k. by apply pending_scan_record.
  - intros line s s'. apply get_scans_line_inv.
  - simpl. split; [by intros k it; rewrite lookup_empty|]. by left.
Qed.

(** X7: every entry of the mapping [get_scans] returns is filed under
  its own network id and holds a non-empty name, the fqdn derived from it,
  and a list under ipv4 and under ipv6. *)

Theorem get_scans_records output out :
  get_scans_lines w output = Ok out →
  ∀ k item, out !! k = Some item → scan_record w k item.
Proof. apply get_scans_lines_records. Qed.

(** *** Errors of the SCAN parser *)



(** X8: [get_scans] can raise only the [AttributeError] of a
  [SCAN name:] line that does not match the full pattern, or [KeyError] for
  ipv4 or ipv6; it never raises a type or index error. *)


Lemma get_scans_line_ignored line st :
  ignored_by_get_scans line → get_scans_line w line st = Ok st.
Proof.
  intros [H1 H2]. destruct st as [out item]. unfold get_scans_line. by rewrite H1, H2.
Qed.

(** X9: an address line [SCAN <n> IPv4|IPv6 VIP: <a>] that comes before
  any [SCAN name:] line makes [get_scans] raise [KeyError] for the
  lower-cased family, since the record is still the empty dict. *)

Theorem get_scans_orphan_address pre line post family address :
  Forall ignored_by_get_scans pre →
  Py.startswith "SCAN name:" line = false →
  search re_scan_vip line = Some [family; address] →
  get_scans_lines w (pre ++ line :: post) = Raise (KeyError (Py.lower family)).
Proof.
  intros Hpre H1 H2. unfold get_scans_lines.
  assert (for_each (get_scans_line w) pre (∅, ∅) = Ok (∅, ∅)) as E.
  { induction Hpre as [|l pre Hl _ IH]; [done|].
    by rewrite for_each_cons, get_scans_line_ignored. }
  rewrite for_each_app, E, bind_Ok_eq, for_each_cons.
  assert (get_scans_line w line (∅, ∅) = Raise (KeyError (Py.lower family))) as ->; [|done].
  unfold get_scans_line. rewrite H1, H2. simpl. unfold append_to, Py.getitem.
  by rewrite lookup_empty.
Qed.

End Scans.

Lemma get_scans_records_witness : scan_record Sample.cluster "1" Cases.scan1.
Proof.
  apply (get_scans_records Sample.cluster Cases.scan_output Sample.scans);
    vm_compute; reflexivity.
Defined.


Lemma get_scans_orphan_address_witness :
  get_scans_lines Sample.cluster
    (["SCAN VIP is enabled"] ++ "SCAN 1 IPv6 VIP: fd00::21" :: [Sample.scan_header])
  = Raise (KeyError "ipv6").
Proof.
  apply (get_scans_orphan_address Sample.cluster ["SCAN VIP is enabled"]
           "SCAN 1 IPv6 VIP: fd00::21" [Sample.scan_header] "IPv6" "fd00::21").
  - repeat constructor; vm_compute; reflexivity.
  - vm_compute. reflexivity.
  - vm_compute. reflexivity.
Defined.

Lemma bind_Raise {A B} (r : result A) (f : A → result B) (e : exn) :
  r ≫= f = Raise e → r = Raise e ∨ ∃ a, r = Ok a ∧ f a = Raise e.
Proof. destruct r as [a|e']; simpl; [eauto | intros [= ->]; eauto]. Qed.

Lemma for_each_Raise {A S} (body : A → S → result S) xs : ∀ st e,
  for_each body xs st = Raise e → ∃ x st', x ∈ xs ∧ body x st' = Raise e.
Proof.
  induction xs as [|x xs IH]; intros st e H; [done|].
  rewrite for_each_cons in H. apply bind_Raise in H as [H|(st' & _ & H)].
  - exists x, st. split; [left|done].
  - apply IH in H as (y & st'' & Hy & H). exists y, st''. split; [by right|done].
Qed.

(** ** The protocol loop *)

Lemma split_two c s :
  free_of c s = false → ∃ a b rest, Py.split c s = a :: b :: rest.
Proof.
  induction s as [|c' s IH]; [done|]. simpl.
  destruct (Ascii.eqb c' c) eqn:E; simpl.
  - intros _. destruct (split_cons c s) as (x & xs & ->). eauto.
  - intros H. destruct (IH H) as (a & b & rest & ->). eauto.
Qed.

Lemma set_protocol_Ok proto d :
  free_of ":" proto = false → ∃ d', set_protocol proto d = Ok d'.
Proof.
  intros H. unfold set_protocol. destruct (split_two _ _ H) as (a & b & rest & ->).
  simpl. eauto.
Qed.

Lemma set_protocol_Raise proto d :
  free_of ":" proto = true → set_protocol proto d = Raise IndexError.
Proof. intros H. unfold set_protocol. by rewrite split_free. Qed.

Lemma set_protocols_Raise endpoints d e :
  set_protocols endpoints d = Raise e → e = IndexError.
Proof.
  unfold set_protocols. intros H. apply for_each_Raise in H as (proto & d' & _ & H).
  destruct (free_of ":" proto) eqn:E.
  - rewrite set_protocol_Raise in H by done. by injection H.
  - destruct (set_protocol_Ok proto d' E) as [d'' Hd]. congruence.
Qed.

(** X10: the protocol loop completes exactly when every token of the
    [/]-split specification contains a colon, and the only error it raises is
    [IndexError] (so an empty specification raises). *)

Theorem set_protocols_completes endpoints d :
  ((∃ d', set_protocols endpoints d = Ok d') ↔
   Forall (λ proto, free_of ":" proto = false) (Py.split "/" endpoints)) ∧
  (∀ e, set_protocols endpoints d = Raise e → e = IndexError).
Proof.
  split; [|apply set_protocols_Raise]. unfold set_protocols.
  generalize (Py.split "/" endpoints). intros protos. revert d.
  induction protos as [|proto protos IH]; intros d.
  - split; [constructor|]. intros _. by eexists.
  - rewrite for_each_cons. split.
    + intros [d' H]. apply bind_Ok in H as (d1 & H1 & H).
      destruct (free_of ":" proto) eqn:E.
      { by rewrite set_protocol_Raise in H1. }
      constructor; [done|]. apply (IH d1). eauto.
    + intros Hall. inversion Hall as [|? ? Hp Hall']; subst.
      destruct (set_protocol_Ok proto d Hp) as [d1 ->]. simpl. by apply IH.
Qed.

Lemma set_protocols_completes_witness :
  ∃ d', set_protocols "TCP:1521/TCPS:1522" ∅ = Ok d'.
Proof.
  apply (proj2 (proj1 (set_protocols_completes "TCP:1521/TCPS:1522" ∅))).
  vm_compute. repeat constructor.
Defined.

(** ** The scan of one network's output *)

Section ScanListenerLoop.
Context (w : World) (srvctl : string).
Context (networks scans : gmap string entity).

(** X15: the scan of one network's output stops at the first line in
  either format: lines before it without endpoints and all lines after it
  do not affect the result. *)

Theorem scan_listener_first_match n pre line post out :
  Forall (λ l, ¬ has_endpoints l) pre → has_endpoints line →
  scan_listener_lines scans n (pre ++ line :: post) out
  = scan_listener_lines scans n [line] out.
Proof.
  intros Hpre Hl. destruct (line_endpoints_found line Hl) as (e & He & _).
  rewrite (scan_listener_lines_first scans n line e [] out He).
  induction Hpre as [|l pre Hn _ IH].
  - rewrite app_nil_l. by rewrite (scan_listener_lines_first scans n line e post out He).
  - rewrite <- app_comm_cons. simpl. by rewrite line_endpoints_none.
Qed.

Lemma scan_listener_domain ks : ∀ out0 out,
  for_each (scan_listener_network w srvctl scans) ks out0 = Ok out →
  ∀ k, is_Some (out !! k) → is_Some (out0 !! k) ∨ (k ∈ ks ∧ is_Some (scans !! k)).
Proof.
  induction ks as [|n ks IH]; intros out0 out H k Hk.
  - injection H as <-. by left.
  - rewrite for_each_cons in H. apply bind_Ok in H as (out1 & H1 & H).
    destruct (IH _ _ H k Hk) as [Hk1|[Hin Hs]]; [|right; split; [by right|done]].
    unfold scan_listener_network in H1. apply bind_Ok in H1 as (output & _ & H1).
    apply scan_listener_lines_Ok in H1 as [->|(rec & -> & Hn)]; [by left|].
    destruct (decide (n = k)) as [<-|Hne]; [right; split; [left|done]|].
    rewrite lookup_insert_ne in Hk1 by done. by left.
Qed.

(** X16: every key of the mapping [scan_listener] returns is a key of
  the network mapping and of the SCAN mapping. *)

Theorem scan_listener_keys out k :
  scan_listener w srvctl networks scans = Ok out → is_Some (out !! k) →
  is_Some (networks !! k) ∧ is_Some (scans !! k).
Proof.
  unfold scan_listener. intros H Hk.
  destruct (scan_listener_domain _ _ _ H k Hk) as [H0|[Hin Hs]].
  - rewrite lookup_empty in H0. by destruct H0.
  - split; [|done]. unfold Py.keys in Hin.
    apply list_elem_of_fmap in Hin as ([k' v] & -> & Hin).
    apply elem_of_map_to_list in Hin. eauto.
Qed.

End ScanListenerLoop.

Lemma scan_listener_first_match_witness :
  scan_listener_lines Sample.scans "1"
    (["SCAN Listeners for network 1:"] ++ Sample.current_line :: [Sample.legacy_line]) ∅
  = scan_listener_lines Sample.scans "1" [Sample.current_line] ∅.
Proof.
  apply (scan_listener_first_match Sample.scans "1" ["SCAN Listeners for network 1:"]
           Sample.current_line [Sample.legacy_line] ∅).
  - repeat constructor. vm_compute. intros [[? H]|[? H]]; discriminate.
  - left. vm_compute. eauto.
Defined.

Lemma scan_listener_keys_witness :
  is_Some (Sample.networks !! "1") ∧ is_Some (Sample.scans !! "1").
Proof.
  apply (scan_listener_keys Sample.cluster Sample.srvctl Sample.networks Sample.scans
           {["1" := Sample.scan_listener_record]} "1").
  - vm_compute. reflexivity.
  - exists Sample.scan_listener_record. apply lookup_singleton_eq.
Defined.

(** ** Lines of the command runner *)



Lemma mapM_fmap {A B} (f : A → result B) (g : A → B) xs :
  Forall (λ x, f x = Ok (g x)) xs → mapM f xs = Ok (g <$> xs).
Proof.
  induction 1 as [|x xs Hx _ IH]; [done|]. simpl. by rewrite Hx, IH.
Qed.

Lemma mapM_total {A B} (f : A → result B) xs :
  Forall (λ x, ∃ y, f x = Ok y) xs → ∃ ys, mapM f xs = Ok ys.
Proof.
  induction 1 as [|x xs [y Hy] _ [ys IH]]; [by eexists|].
  simpl. rewrite Hy, IH. by eexists.
Qed.







Lemma is_ascii_lstrip s : Py.is_ascii s = true → Py.is_ascii (Py.lstrip s) = true.
Proof.
  induction s as [|c' s IH]; [done|]. simpl. intros [H1 H2]%andb_true_iff.
  destruct (Py.is_space c'); [by apply IH|]. simpl. by rewrite H1, H2.
Qed.

Lemma is_ascii_rstrip s : Py.is_ascii s = true → Py.is_ascii (Py.rstrip s) = true.
Proof.
  induction s as [|c' s IH]; [done|]. simpl. intros [H1 H2]%andb_true_iff.
  specialize (IH H2). destruct (Py.rstrip s).
  - destruct (Py.is_space c'); [done|]. simpl. by rewrite H1.
  - simpl. simpl in IH. by rewrite H1, IH.
Qed.


Lemma is_ascii_app s t : Py.is_ascii (s +:+ t) = Py.is_ascii s && Py.is_ascii t.
Proof.
  induction s as [|c s IH]; [done|]. rewrite append_cons. simpl.
  by rewrite IH, andb_assoc.
Qed.


Lemma splitlines_from_ascii n : ∀ s cur,
  (String.length s <= n)%nat → Py.is_ascii cur = true → Py.is_ascii s = true →
  Forall (λ l, Py.is_ascii l = true) (Py.splitlines_from cur s).
Proof.
  induction n as [|n IH]; intros s cur Hlen Hcur Hs.
  - destruct s; [|simpl in Hlen; lia]. simpl. destruct cur; repeat constructor; apply Hcur.
  - destruct s as [|c s]; [simpl; destruct cur; repeat constructor; apply Hcur|].
    simpl in Hlen. simpl in Hs. apply andb_true_iff in Hs as [Hc Hs]. simpl.
    destruct (Ascii.eqb c Py.nl) eqn:E1.
    { constructor; [done|]. apply IH; [lia|done|done]. }
    destruct (Ascii.eqb c "013") eqn:E2.
    { destruct s as [|c' s]; [constructor; [done|constructor]|]. simpl in Hlen.
      pose proof Hs as Hs'. simpl in Hs'. apply andb_true_iff in Hs' as [Hc' Hs'].
      destruct (Ascii.eqb c' Py.nl); (constructor; [done|]); apply IH; simpl; try lia; done. }
    apply IH; [lia| |done]. rewrite is_ascii_app, Hcur. simpl. by rewrite Hc.
Qed.

Section Runner.
Context (w : World).


(** X1: every line [exec_program_lines] returns is stripped (stripping it
  again changes nothing) and holds no line-break character, whether the
  command succeeded or failed. *)


(** X2: for a command that exits with status 0 and prints 7-bit text,
  [exec_program_lines] raises nothing and returns the stripped lines of
  [splitlines], in order. *)

Theorem exec_program_lines_ascii arguments stdout :
  check_output w arguments = Exit0 stdout → Py.is_ascii stdout = true →
  exec_program_lines w arguments = Ok (Py.strip <$> Py.splitlines stdout).
Proof.
  intros H Ha. unfold exec_program_lines. rewrite H.
  pose proof (splitlines_from_ascii (String.length stdout) stdout "" (le_n _)
                eq_refl Ha) as Hl.
  fold (Py.splitlines stdout) in Hl.
  apply mapM_fmap. eapply List.Forall_impl; [|exact Hl].
  intros raw Hr. simpl in Hr. unfold Py.decode, Py.strip.
  by rewrite is_ascii_rstrip by (by apply is_ascii_lstrip).
Qed.

End Runner.


Lemma exec_program_lines_ascii_witness :
  exec_program_lines Sample.cluster [Sample.srvctl; "config"; "database"]
  = Ok (Py.strip <$> Py.splitlines ("orcl" +:+ String Py.nl "")).
Proof.
  apply (exec_program_lines_ascii Sample.cluster); vm_compute; reflexivity.
Defined.


(** ** Errors of SCAN-listener resolution *)

Section ScanListenerErrors.
Context (w : World) (srvctl : string).
Context (networks scans : gmap string entity).
Hypothesis scans_built : ∀ k scan, scans !! k = Some scan → scan_record w k scan.




End ScanListenerErrors.

(** X17: with the SCAN mapping that [get_scans] built, [scan_listener]
    raises only the runner's decode error, the [IndexError] of a token without
    a colon, or [KeyError] for a network id that has no SCAN; never a
    [KeyError] for a field of a SCAN record. *)



(** ** Listener names *)

Lemma search_listener_name_inv line gs :
  search re_listener_name line = Some gs → ∃ g, gs = [g] ∧ g ≠ "".
Proof.
  intros H.
  apply (search_group_chars (lit "Listener ") Dot (lit " is enabled")) in H
    as (gs1 & g & gs2 & -> & Hg & _ & H1 & H2).
  destruct gs1; [|done]. destruct gs2; [|done]. eauto.
Qed.

Lemma listener_name_line_spec line listeners :
  listener_name_line line listeners
  = if Py.contains "is enabled" line then
      match search re_listener_name line with
      | Some [g] => Ok (listeners ++ [g])
      | _ => Raise (AttributeError "NoneType" "group")
      end
    else Ok listeners.
Proof.
  unfold listener_name_line. destruct (Py.contains "is enabled" line); [|done].
  destruct (search re_listener_name line) as [gs|] eqn:E; [|done].
  by apply search_listener_name_inv in E as (g & -> & _).
Qed.

Lemma listener_names_loop lines : ∀ acc,
  Forall listener_line_ok lines →
  for_each listener_name_line lines acc = Ok (acc ++ enabled_names lines).
Proof.
  induction lines as [|line lines IH]; intros acc Hall.
  - simpl. by rewrite app_nil_r.
  - inversion Hall as [|? ? Hl Hall']; subst.
    rewrite for_each_cons, listener_name_line_spec. unfold enabled_names. simpl.
    unfold listener_line_ok in Hl.
    destruct (Py.contains "is enabled" line).
    + destruct Hl as [gs Hl]; [done|]. rewrite Hl.
      apply search_listener_name_inv in Hl as (g & -> & _). simpl.
      rewrite IH by done. by rewrite <- app_assoc.
    + simpl. by apply IH.
Qed.

Lemma listener_names_loop_Raise lines : ∀ acc,
  ¬ Forall listener_line_ok lines →
  for_each listener_name_line lines acc = Raise (AttributeError "NoneType" "group").
Proof.
  induction lines as [|line lines IH]; intros acc Hall.
  - destruct Hall. constructor.
  - rewrite for_each_cons, listener_name_line_spec.
    destruct (Py.contains "is enabled" line) eqn:Hc.
    + destruct (search re_listener_name line) as [gs|] eqn:Hs; [|done].
      destruct (search_listener_name_inv _ _ Hs) as (g & Hg & _). rewrite Hg. simpl.
      apply IH. intros H. apply Hall. constructor; [|done]. intros _. eauto.
    + simpl. apply IH. intros H. apply Hall. constructor; [|done].
      unfold listener_line_ok. by rewrite Hc.
Qed.

(** X13: the first loop of [local_listener] returns the captured names
    of the lines containing [is enabled], in order, when each such line
    matches [Listener <name> is enabled]; when one does not, it raises the
    [AttributeError] of [group] on a failed match. *)

Theorem listener_names_completes w srvctl shorthostname (iscrs : bool) lines :
  exec_program_lines w
    (if iscrs then [srvctl; "status"; "listener"; "-n"; shorthostname]
     else [srvctl; "status"; "listener"]) = Ok lines →
  (Forall listener_line_ok lines →
     listener_names w srvctl shorthostname iscrs = Ok (enabled_names lines)) ∧
  (¬ Forall listener_line_ok lines →
     listener_names w srvctl shorthostname iscrs
     = Raise (AttributeError "NoneType" "group")).
Proof.
  intros H.
  assert (listener_names w srvctl shorthostname iscrs
          = for_each listener_name_line lines []) as ->.
  { unfold listener_names. destruct iscrs; simpl; by rewrite H. }
  split; intros Hall.
  - by rewrite listener_names_loop.
  - by apply listener_names_loop_Raise.
Qed.

Lemma listener_names_completes_witness :
  listener_names Sample.cluster Sample.srvctl "n1" true
  = Ok (enabled_names ["Listener LISTENER is enabled on node(s): n1";
                       "Listener LISTENER is running on node(s): n1"]).
Proof.
  apply (proj1 (listener_names_completes Sample.cluster Sample.srvctl "n1" true _
                  ltac:(vm_compute; reflexivity))).
  repeat constructor; intros H; vm_compute in H; try discriminate. vm_compute. eauto.
Defined.

(** ** One record per listener *)

Section LocalListener.
Context (w : World) (srvctl shorthostname : string) (iscrs : bool).
Context (vips : gmap string entity).

Lemma listener_loop listeners : ∀ acc out,
  for_each (listener w srvctl vips) listeners acc = Ok out →
  ∃ recs, out = acc ++ recs ∧ Forall2 (listener_of w srvctl vips) listeners recs.
Proof.
  induction listeners as [|l listeners IH]; intros acc out H.
  - injection H as <-. exists []. split; [by rewrite app_nil_r|constructor].
  - rewrite for_each_cons in H. apply bind_Ok in H as (acc1 & H1 & H).
    unfold listener in H1. apply bind_Ok in H1 as (config & Hc & H1).
    apply bind_Ok in H1 as (rec & Hr & H1). injection H1 as <-.
    apply IH in H as (recs & -> & Hrecs). exists (rec :: recs).
    split; [by rewrite <- app_assoc|]. constructor; [|done]. by exists config.
Qed.

(** X14: a listener parse that completes returns exactly one record
  per enabled listener name, in the order of the names, each the resolved
  configuration of its listener. *)

Theorem local_listener_one_per_name listeners out :
  listener_names w srvctl shorthostname iscrs = Ok listeners →
  local_listener w srvctl shorthostname iscrs vips = Ok out →
  Forall2 (listener_of w srvctl vips) listeners out.
Proof.
  intros Hn H. unfold local_listener in H. rewrite Hn in H. simpl in H.
  apply listener_loop in H as (recs & -> & Hrecs). done.
Qed.

End LocalListener.

Lemma local_listener_one_per_name_witness :
  Forall2 (listener_of Sample.cluster Sample.srvctl Sample.vips)
    ["LISTENER"] [Sample.listener_record].
Proof.
  apply (local_listener_one_per_name Sample.cluster Sample.srvctl "n1" true Sample.vips);
    vm_compute; reflexivity.
Defined.

(** ** The network id of a listener *)

Lemma length_append s t :
  String.length (s +:+ t) = (String.length s + String.length t)%nat.
Proof. induction s as [|c s IH]; [done|]. rewrite append_cons. simpl. by rewrite IH. Qed.

Lemma find_free c s : free_of c s = true → Py.find c s = (-1)%Z.
Proof.
  induction s as [|c' s IH]; [done|]. simpl. intros [H1 H2]%andb_true_iff.
  apply negb_true_iff in H1. by rewrite H1, IH.
Qed.

Lemma find_sep c s t :
  free_of c s = true → Py.find c (s +:+ String c t) = Z.of_nat (String.length s).
Proof.
  induction s as [|c' s IH].
  - intros _. change ("" +:+ String c t) with (String c t). simpl.
    by rewrite Ascii.eqb_refl.
  - intros [H1 H2]%andb_true_iff. apply negb_true_iff in H1.
    rewrite append_cons. cbn [Py.find]. rewrite H1, IH by done.
    destruct (Z.ltb_spec (Z.of_nat (String.length s)) 0); [lia|].
    cbn [String.length]. lia.
Qed.

Lemma substring_skip pre m t :
  String.substring (String.length pre) m (pre +:+ t) = String.substring 0 m t.
Proof. induction pre as [|c pre IH]; [done|]. rewrite append_cons. simpl. apply IH. Qed.

Lemma substring_take s post :
  String.substring 0 (String.length s) (s +:+ post) = s.
Proof.
  induction s as [|c s IH].
  - simpl. by destruct post.
  - rewrite append_cons. simpl. by rewrite IH.
Qed.

Lemma slice_middle pre s post (hi : Z) :
  Py.bound (Z.of_nat (String.length (pre +:+ s +:+ post))) hi
  = Z.of_nat (String.length pre + String.length s) →
  Py.slice (Z.of_nat (String.length pre)) hi (pre +:+ s +:+ post) = s.
Proof.
  intros Hb. unfold Py.slice. rewrite Hb.
  assert (Py.bound (Z.of_nat (String.length (pre +:+ s +:+ post)))
            (Z.of_nat (String.length pre)) = Z.of_nat (String.length pre)) as ->.
  { unfold Py.bound. destruct (Z.ltb_spec (Z.of_nat (String.length pre)) 0); [lia|].
    rewrite !length_append. lia. }
  replace (Z.to_nat (Z.of_nat (String.length pre + String.length s)
                     - Z.of_nat (String.length pre))) with (String.length s) by lia.
  rewrite Nat2Z.id, substring_skip. apply substring_take.
Qed.

Lemma listener_network_line tail config :
  listener_config_line ("Network:" +:+ tail) config
  = Ok (<["network" := Str (Py.slice 9 (Py.find "," ("Network:" +:+ tail))
                              ("Network:" +:+ tail))]> config).
Proof.
  unfold listener_config_line.
  assert (Py.startswith "Name:" ("Network:" +:+ tail) = false) as -> by (by vm_compute).
  assert (Py.startswith "Type:" ("Network:" +:+ tail) = false) as -> by (by vm_compute).
  assert (Py.startswith "Network:" ("Network:" +:+ tail) = true) as ->
    by (vm_compute; by destruct tail).
  done.
Qed.

(** X12: on a [Network:] line the id is the text between the ninth
    character and the first comma; when the line has no comma, [find] gives
    -1 and the slice drops the last character of the line. *)

Theorem listener_network_id :
  (∀ id rest config,
     free_of "," id = true →
     listener_config_line ("Network: " +:+ id +:+ String "," rest) config
     = Ok (<["network" := Str id]> config)) ∧
  (∀ id c config,
     free_of "," (id +:+ String c "") = true →
     listener_config_line ("Network: " +:+ id +:+ String c "") config
     = Ok (<["network" := Str id]> config)).
Proof.
  split.
  - intros id rest config Hid.
    change ("Network: " +:+ id +:+ String "," rest)
      with ("Network:" +:+ (" " +:+ id +:+ String "," rest)).
    rewrite listener_network_line.
    change ("Network:" +:+ (" " +:+ id +:+ String "," rest))
      with ("Network: " +:+ id +:+ String "," rest).
    do 3 f_equal.
    replace (Py.find "," ("Network: " +:+ id +:+ String "," rest))
      with (Z.of_nat (String.length "Network: " + String.length id)).
    + apply (slice_middle "Network: " id (String "," rest)).
      unfold Py.bound. rewrite !length_append. simpl String.length.
      destruct (Z.ltb_spec (Z.of_nat (9 + String.length id)) 0); lia.
    + rewrite <- append_assoc, find_sep, length_append; [done|].
      rewrite free_of_app. by rewrite Hid.
  - intros id c config Hid.
    change ("Network: " +:+ id +:+ String c "")
      with ("Network:" +:+ (" " +:+ id +:+ String c "")).
    rewrite listener_network_line.
    change ("Network:" +:+ (" " +:+ id +:+ String c ""))
      with ("Network: " +:+ id +:+ String c "").
    do 3 f_equal.
    rewrite find_free by (by rewrite free_of_app, Hid).
    apply (slice_middle "Network: " id (String c "")).
    unfold Py.bound. rewrite !length_append. simpl String.length.
    destruct (Z.ltb_spec (-1) 0); lia.
Qed.

Lemma listener_network_id_witness :
  listener_config_line ("Network: " +:+ "1" +:+ String "," " Owner: grid") ∅
  = Ok (<["network" := Str "1"]> ∅).
Proof.
  apply (proj1 listener_network_id "1" " Owner: grid" ∅). vm_compute. reflexivity.
Defined.

(** ** The assembled facts *)

Lemma main_inv w oracle_home r :
  main w oracle_home = Ok r →
  ∃ nodes shorthostname clustername facts vips networks scans listeners
    scan_listeners database_list,
    exec_program_lines w [tool oracle_home "olsnodes"] = Ok nodes ∧
    Py.index (Py.split "." (gethostname w)) 0 = Ok shorthostname ∧
    exec_program w [tool oracle_home "cemutlo"; "-n"] = Ok clustername ∧
    (if Py.bool_of_list nodes then facts = {["clustername" := FStr clustername]}
     else for_each (restart_version w (tool oracle_home "crsctl")) restart_queries
            {["clustername" := FStr clustername]} = Ok facts) ∧
    get_vips w (tool oracle_home "srvctl") shorthostname = Ok vips ∧
    get_networks w (tool oracle_home "srvctl") = Ok networks ∧
    get_scans w (tool oracle_home "srvctl") = Ok scans ∧
    local_listener w (tool oracle_home "srvctl") shorthostname (Py.bool_of_list nodes) vips
    = Ok listeners ∧
    (if Py.bool_of_list nodes
     then ∃ out, scan_listener w (tool oracle_home "srvctl") networks scans = Ok out ∧
                 scan_listeners = Py.values out
     else scan_listeners = []) ∧
    exec_program_lines w [tool oracle_home "srvctl"; "config"; "database"]
    = Ok database_list ∧
    r = {| run_iscrs := Py.bool_of_list nodes;
           run_facts := assembled facts oracle_home vips networks scans listeners
                          scan_listeners database_list |}.
Proof.
  unfold main. intros H. bind_inv H. injection H as <-.
  exists a, a0, a1, a2, a3, a4, a5, a6, a7, a8.
  repeat split; try done.
  - destruct (Py.bool_of_list a); [|done].
    apply bind_Ok in E2 as (? & _ & E2). by injection E2 as <-.
  - destruct (Py.bool_of_list a).
    + apply bind_Ok in E7 as (out & Ho & E7). injection E7 as <-. eauto.
    + by injection E7 as <-.
Qed.

(** X18: in cluster mode the facts [main] returns have exactly the
    eight keys clustername, vip, network, scan, local_listener, scan_listener,
    database_list and oracle_crs_home: the active version that was queried is
    not stored under any key; oracle_crs_home is the home directory. *)

Theorem main_cluster_facts w oracle_home r :
  main w oracle_home = Ok r → run_iscrs r = true →
  dom (run_facts r)
  = {[ "clustername"; "vip"; "network"; "scan"; "local_listener"; "scan_listener";
       "database_list"; "oracle_crs_home" ]} ∧
  run_facts r !! "oracle_crs_home" = Some (FStr oracle_home).
Proof.
  intros H Hc.
  apply main_inv in H as (nodes & sh & cn & facts & vips & networks & scans & ls & sls & db
                          & _ & _ & _ & Hf & _ & _ & _ & _ & _ & _ & ->).
  simpl in Hc. rewrite Hc in Hf. subst facts. simpl. unfold assembled. split.
  - rewrite !dom_insert_L, dom_singleton_L. set_solver.
  - by rewrite lookup_insert_eq.
Qed.

Lemma main_cluster_facts_witness :
  dom (run_facts Cases.cluster_run)
  = {[ "clustername"; "vip"; "network"; "scan"; "local_listener"; "scan_listener";
       "database_list"; "oracle_crs_home" ]} ∧
  run_facts Cases.cluster_run !! "oracle_crs_home" = Some (FStr Sample.home).
Proof.
  apply (main_cluster_facts Sample.cluster Sample.home Cases.cluster_run);
    vm_compute; reflexivity.
Defined.

Section RestartFacts.
Context (w : World) (crsctl : string) (v : string → string).

Lemma restart_versions_keep queries : ∀ facts facts' k,
  (∀ i, i ∈ queries → exec_program w [crsctl; "query"; "has"; i] = Ok (v i)) →
  k ∉ queries → k ≠ "version" →
  for_each (restart_version w crsctl) queries facts = Ok facts' →
  facts' !! k = facts !! k.
Proof.
  induction queries as [|i queries IH]; intros facts facts' k H Hk Hv Hrun.
  - by injection Hrun as <-.
  - rewrite for_each_cons, (restart_version_spec w crsctl v) in Hrun by (apply H; left).
    simpl in Hrun. apply not_elem_of_cons in Hk as [Hki Hk].
    erewrite IH; [| |exact Hk|exact Hv|exact Hrun].
    + destruct (search re_version (v i)) as [[|t [|]]|];
        by rewrite ?lookup_insert_ne by done.
    + intros j Hj. apply H. by right.
Qed.

Lemma restart_versions_fact queries : ∀ facts facts' i,
  (∀ i, i ∈ queries → exec_program w [crsctl; "query"; "has"; i] = Ok (v i)) →
  NoDup queries → "version" ∉ queries → i ∈ queries →
  for_each (restart_version w crsctl) queries facts = Ok facts' →
  facts' !! i = Some (FStr (version_fact (v i))).
Proof.
  induction queries as [|j queries IH]; intros facts facts' i H Hnd Hv Hi Hrun.
  - by apply elem_of_nil in Hi.
  - inversion Hnd as [|? ? Hj Hnd']; subst. apply not_elem_of_cons in Hv as [Hvj Hv].
    apply elem_of_cons in Hi as [->|Hi].
    + rewrite for_each_cons, (restart_version_spec w crsctl v) in Hrun by (apply H; left).
      simpl in Hrun.
      erewrite restart_versions_keep; [| |exact Hj|by intros ->|exact Hrun].
      * unfold version_fact.
        destruct (search re_version (v j)) as [[|t [|]]|];
          by rewrite ?(lookup_insert_ne _ "version"), lookup_insert_eq by done.
      * intros k Hk. apply H. by right.
    + rewrite for_each_cons in Hrun. apply bind_Ok in Hrun as (facts1 & _ & Hrun).
      eapply IH; [|done|done|done|exact Hrun]. intros k Hk. apply H. by right.
Qed.

End RestartFacts.

Lemma restart_queries_NoDup : NoDup restart_queries.
Proof.
  apply NoDup_ListNoDup. unfold restart_queries.
  repeat constructor; simpl; intuition discriminate.
Qed.

(** X19: in restart mode each of the four sub-query keys is present in
    the facts [main] returns: it holds the bracketed token when the answer
    ends with one and the raw answer otherwise, and later sub-queries do not
    change it. *)

Theorem main_restart_facts w oracle_home r (v : string → string) i :
  exec_program_lines w [tool oracle_home "olsnodes"] = Ok [] →
  (∀ i, i ∈ restart_queries →
        exec_program w [tool oracle_home "crsctl"; "query"; "has"; i] = Ok (v i)) →
  main w oracle_home = Ok r →
  i ∈ restart_queries →
  run_facts r !! i = Some (FStr (version_fact (v i))).
Proof.
  intros Hn Hv H Hi.
  apply main_inv in H as (nodes & sh & cn & facts & vips & networks & scans & ls & sls & db
                          & Hnodes & _ & _ & Hf & _ & _ & _ & _ & _ & _ & ->).
  rewrite Hn in Hnodes. injection Hnodes as <-. simpl in Hf. simpl. unfold assembled.
  assert (facts !! i = Some (FStr (version_fact (v i)))) as Hfact.
  { eapply restart_versions_fact; [exact Hv|apply restart_queries_NoDup| |exact Hi|exact Hf].
    apply version_not_query. }
  unfold restart_queries in Hi.
  repeat (apply elem_of_cons in Hi as [->|Hi];
          [by rewrite !lookup_insert_ne by done|]).
  by apply elem_of_nil in Hi.
Qed.

Lemma main_restart_facts_witness :
  run_facts Sample.restart_run !! "releasepatch"
  = Some (FStr (version_fact (Sample.restart_answer "releasepatch"))).
Proof.
  apply (main_restart_facts Sample.restart Sample.home Sample.restart_run
           Sample.restart_answer "releasepatch"
           ltac:(vm_compute; reflexivity)
           ltac:(intros i Hi; unfold restart_queries in Hi;
                 repeat (apply elem_of_cons in Hi as [->|Hi]; [vm_compute; reflexivity|]);
                 by apply elem_of_nil in Hi)
           ltac:(vm_compute; reflexivity)).
  apply list_elem_of_further, list_elem_of_here.
Defined.

(** ** Concatenated outputs *)

Lemma flush_union out item base :
  keyed item →
  flush (out ∪ base) item = flush out item ≫= λ out', Ok (out' ∪ base).
Proof.
  intros Hk. rewrite !flush_spec by done. simpl.
  destruct (item !! "network") as [[k|]|]; try done. by rewrite insert_union_l.
Qed.

Lemma get_networks_line_union line out item base :
  keyed item →
  get_networks_line line (out ∪ base, item)
  = get_networks_line line (out, item) ≫= λ st, Ok (st.1 ∪ base, st.2).
Proof.
  intros Hk. unfold get_networks_line.
  destruct (search re_network line) as [gs|] eqn:E.
  - rewrite flush_union, !flush_spec by done. simpl.
    by destruct (group_1 _ _ _ E eq_refl) as [g ->].
  - by repeat case_match.
Qed.

Lemma get_networks_loop_union output base : ∀ out item,
  keyed item →
  for_each get_networks_line output (out ∪ base, item)
  = for_each get_networks_line output (out, item) ≫= λ st, Ok (st.1 ∪ base, st.2).
Proof.
  induction output as [|line output IH]; intros out item Hk; [done|].
  rewrite !for_each_cons, get_networks_line_union by done.
  destruct (get_networks_line_ok line out item Hk) as (out' & item' & -> & Hk'). simpl.
  by apply IH.
Qed.

(** X4: parsing an output followed by a second one that starts with a
    [Network <id> exists] line gives the union of the two parses, the second
    taking precedence on a repeated id: blocks are parsed independently and a
    later block replaces an earlier one with the same id. *)

Theorem get_networks_concat output1 header output2 :
  is_Some (search re_network header) →
  get_networks_lines (output1 ++ header :: output2)
  = out1 ← get_networks_lines output1;
    out2 ← get_networks_lines (header :: output2);
    mret (out2 ∪ out1).
Proof.
  intros [gs Hh]. destruct (group_1 _ _ _ Hh eq_refl) as [g ->].
  unfold get_networks_lines. rewrite for_each_app.
  destruct (get_networks_loop_ok output1 ∅ ∅ keyed_empty) as (o1 & i1 & -> & Hk1).
  rewrite !bind_Ok_eq, !for_each_cons.
  assert (∀ out item, keyed item →
            get_networks_line header (out, item)
            = flush out item ≫= λ out', Ok (out', {["network" := Str g]})) as Hstep.
  { intros out item Hk. unfold get_networks_line. by rewrite Hh. }
  rewrite !Hstep by auto using keyed_empty.
  rewrite !flush_spec by auto using keyed_empty. rewrite lookup_empty.
  cbn [fst snd]. rewrite !bind_Ok_eq.
  set (out1 := match i1 !! "network" with
               | Some (Str k) => <[k := i1]> o1
               | _ => o1
               end).
  rewrite <- (left_id_L ∅ (∪) out1) at 1.
  rewrite get_networks_loop_union by apply keyed_network.
  destruct (get_networks_loop_ok output2 ∅ {["network" := Str g]} (keyed_network g))
    as (o2 & i2 & -> & Hk2).
  rewrite !bind_Ok_eq. cbn [fst snd].
  rewrite flush_union, !flush_spec by done. done.
Qed.

Lemma get_networks_concat_witness :
  get_networks_lines (["Network 1 exists"; "Subnet IPv4: 10.0.0.0/24"]
                      ++ "Network 2 exists" :: ["Subnet IPv4: 10.0.1.0/24"])
  = out1 ← get_networks_lines ["Network 1 exists"; "Subnet IPv4: 10.0.0.0/24"];
    out2 ← get_networks_lines ("Network 2 exists" :: ["Subnet IPv4: 10.0.1.0/24"]);
    mret (out2 ∪ out1).
Proof.
  apply (get_networks_concat ["Network 1 exists"; "Subnet IPv4: 10.0.0.0/24"]
           "Network 2 exists" ["Subnet IPv4: 10.0.1.0/24"]).
  vm_compute. eauto.
Defined.


(** X20: when [main] returns, every parser returned: the VIPs were
    queried for the host name up to its first dot, and the vip, network, scan
    and local_listener facts are the values of the mappings the parsers built
    (in cluster mode the scan_listener fact too). *)



(** ** What the protocol loop leaves alone *)

Lemma set_protocol_Ok_inv proto d d' :
  set_protocol proto d = Ok d' →
  ∃ name port, Py.split ":" proto !! 0 = Some name ∧ Py.split ":" proto !! 1 = Some port ∧
               d' = <[Py.lower name := Str port]> d.
Proof.
  unfold set_protocol, Py.index. intros H.
  destruct (Py.split ":" proto !! 1) as [port|]; [|done].
  destruct (Py.split ":" proto !! 0) as [name|]; [|done].
  injection H as <-. eauto.
Qed.

(** X11: the protocol loop changes no key other than the lower-cased
    protocol names of its tokens: every other entry of the dict is kept. *)

Theorem set_protocols_frame endpoints d d' k :
  set_protocols endpoints d = Ok d' →
  k ∉ protocol_key <$> Py.split "/" endpoints →
  d' !! k = d !! k.
Proof.
  unfold set_protocols. generalize (Py.split "/" endpoints). intros protos.
  revert d. induction protos as [|proto protos IH]; intros d H Hk.
  - by injection H as <-.
  - rewrite for_each_cons in H. apply bind_Ok in H as (d1 & H1 & H).
    rewrite fmap_cons in Hk. apply not_elem_of_cons in Hk as [Hk1 Hk].
    rewrite (IH d1 H Hk).
    apply set_protocol_Ok_inv in H1 as (name & port & Hn & _ & ->).
    unfold protocol_key in Hk1. rewrite Hn in Hk1. simpl in Hk1.
    by rewrite lookup_insert_ne.
Qed.

Lemma set_protocols_frame_witness :
  (<["tcp" := Str "1521"]> {["name" := Str "LISTENER"]} : entity) !! "name"
  = ({["name" := Str "LISTENER"]} : entity) !! "name".
Proof.
  apply (set_protocols_frame "TCP:1521" {["name" := Str "LISTENER"]}).
  - vm_compute. reflexivity.
  - vm_compute. intros H. apply list_elem_of_singleton in H. discriminate.
Defined.

(** ** Fixed offsets *)

(** X21: the fixed offsets equal the width of the label and one
    separator: the text after [Subnet IPv4: ], [Subnet IPv6: ], [VIP Name: ],
    [VIP IPv4 Address: ], [VIP IPv6 Address: ], [Name: ] and [Type: ] is stored
    unchanged (for a Subnet line, provided the line does not also match
    [Network <id> exists], which is tested first). *)

Theorem field_offsets w (value : string) :
  (∀ st, search re_network ("Subnet IPv4: " +:+ value) = None →
         get_networks_line ("Subnet IPv4: " +:+ value) st
         = Ok (st.1, <["ipv4" := Str value]> st.2)) ∧
  (∀ st, search re_network ("Subnet IPv6: " +:+ value) = None →
         get_networks_line ("Subnet IPv6: " +:+ value) st
         = Ok (st.1, <["ipv6" := Str value]> st.2)) ∧
  (∀ st, get_vips_line w ("VIP Name: " +:+ value) st
         = Ok (st.1, <["fqdn" := Str (hostname_to_fqdn w value)]>
                       (<["name" := Str value]> st.2))) ∧
  (∀ st, get_vips_line w ("VIP IPv4 Address: " +:+ value) st
         = Ok (st.1, <["ipv4" := Str value]> st.2)) ∧
  (∀ st, get_vips_line w ("VIP IPv6 Address: " +:+ value) st
         = Ok (st.1, <["ipv6" := Str value]> st.2)) ∧
  (∀ config, listener_config_line ("Name: " +:+ value) config
             = Ok (<["name" := Str value]> config)) ∧
  (∀ config, listener_config_line ("Type: " +:+ value) config
             = Ok (<["type" := Str value]> config)).
Proof.
  assert (∀ p : string, String.prefix "" p = true) as Hp by (by intros []).
  split; [|split; [|split; [|split; [|split; [|split]]]]].
  - intros [out item] H. unfold get_networks_line. rewrite H.
    rewrite !append_cons, append_empty_l. simpl. by rewrite ?Hp.
  - intros [out item] H. unfold get_networks_line. rewrite H.
    rewrite !append_cons, append_empty_l. simpl. by rewrite ?Hp.
  - intros [out item]. unfold get_vips_line.
    rewrite !append_cons, append_empty_l. simpl. by rewrite ?Hp.
  - intros [out item]. unfold get_vips_line.
    rewrite !append_cons, append_empty_l. simpl. by rewrite ?Hp.
  - intros [out item]. unfold get_vips_line.
    rewrite !append_cons, append_empty_l. simpl. by rewrite ?Hp.
  - intros config. unfold listener_config_line.
    rewrite !append_cons, append_empty_l. simpl. by rewrite ?Hp.
  - intros config. unfold listener_config_line.
    rewrite !append_cons, append_empty_l. simpl. by rewrite ?Hp.
Qed.

Lemma field_offsets_witness :
  get_networks_line ("Subnet IPv4: " +:+ "10.0.0.0/24") (∅, Cases.network1)
  = Ok (∅, <["ipv4" := Str "10.0.0.0/24"]> Cases.network1).
Proof.
  apply (proj1 (field_offsets Sample.cluster "10.0.0.0/24") (∅, Cases.network1)).
  vm_compute. reflexivity.
Defined.
